(** * Megatron-DeepSpeed: the training test harness and the eval adapter

    A shallow embedding of [tests/test_training.py] and
    [tools/eval_harness.py].

    Python [str] values are modelled as [string] (ASCII characters), Python
    [int] values as [Z], Python lists as [list].  An exception raised by the
    code is the left injection of a sum; state (the file system, the world the
    training job runs in) is passed explicitly. *)

From Stdlib Require Import ZArith Lia List Ascii String.
From Stdlib Require Import DecimalString DecimalPos DecimalZ.
From stdpp Require Import base gmap strings list fin_maps.
Import ListNotations.

Local Open Scope Z_scope.
Local Open Scope string_scope.

(** ** Exceptions and results *)

Inductive exn : Type :=
| ValueError (msg : string)
| AssertionError (msg : string)
| AttributeError (attr : string)
| IsADirectoryError (path : string)
| FileNotFoundError (path : string)
| ExternalError (msg : string).

Definition result (A : Type) : Type := (exn + A)%type.

(** ** Python string primitives used by the harness *)

Module PyStr.

(** [str.isspace] on one ASCII character: TAB, LF, VT, FF, CR, the four
    separators FS GS RS US, and the space. *)
Definition is_space (c : ascii) : bool :=
  let n := nat_of_ascii c in
  ((9 <=? n)%nat && (n <=? 13)%nat) || ((28 <=? n)%nat && (n <=? 32)%nat).

(** [s.split()]: the maximal runs of non-whitespace characters, in order.
    [tok] is the run being read. *)
Fixpoint split_from (tok : string) (s : string) : list string :=
  match s with
  | EmptyString => if String.eqb tok "" then [] else [tok]
  | String c s' =>
      if is_space c
      then (if String.eqb tok "" then split_from "" s'
            else tok :: split_from "" s')
      else split_from (tok +:+ String c "") s'
  end.

Definition split (s : string) : list string := split_from "" s.

(** [needle in hay] for two strings. *)
Fixpoint contains (needle hay : string) : bool :=
  String.prefix needle hay ||
  match hay with
  | EmptyString => false
  | String _ hay' => contains needle hay'
  end.

(** [str(n)] and the [{n}] of an f-string, for an [int]. *)
Definition of_int (n : Z) : string := NilZero.string_of_int (Z.to_int n).

(** [int(s)] on a decimal literal; [None] where Python raises. *)
Definition to_int (s : string) : option Z :=
  option_map Z.of_int (NilZero.int_of_string s).

End PyStr.

(** ** tests/test_training.py: module-level functions *)

(** [get_launcher(num_gpus)] *)
Definition get_launcher (num_gpus : Z) : list string :=
  PyStr.split ("deepspeed --num_nodes 1 --num_gpus " +:+ PyStr.of_int num_gpus).

(** [get_3d_dimensions()]; the accelerator count read from
    [get_gpu_count()] is the argument.  The result is
    [(pp_size, tp_size, dp_size)]. *)
Definition get_3d_dimensions (gpu_count : Z) : Z * Z * Z :=
  let num_gpus := gpu_count in
  let dp_size := 1 in
  if num_gpus >=? 4 then (2, 2, dp_size)
  else if num_gpus >=? 2 then (2, 1, dp_size)
  else (1, 1, dp_size).

(** ** The test case object

    The attributes [MegDSTestTraining] inherits from [TestCasePlus]
    (megatron.testing_utils, not part of this repository fragment): they are
    resolved paths, filled in by the framework's own [setUp]. *)
Record TestCasePlus : Type := {
  data_dir : string;
  test_file_dir_str : string;
  src_dir : string;
  repo_root_dir_str : string
}.

(** [MegDSTestTraining.get_variation_config(self, variation, output_dir)];
    [gpu_count] is what [get_gpu_count()] answers.  Returns
    [(args, ds_args, num_gpus)] or raises [ValueError]. *)
Definition get_variation_config (self : TestCasePlus) (gpu_count : Z)
    (variation output_dir : string) : result (list string * list string * Z) :=
  let data_dir := data_dir self +:+ "/gpt2" in
  let '(pp_size, tp_size, dp_size) := get_3d_dimensions gpu_count in
  let num_gpus := pp_size * tp_size * dp_size in
  let n_samples := 300 in
  let exit_interval := 20 in
  let seq_len := 128 in
  if String.eqb variation "base" then
    let args :=
      PyStr.split
        ("
                --tensor-model-parallel-size " +:+ PyStr.of_int tp_size +:+ "
                --pipeline-model-parallel-size " +:+ PyStr.of_int pp_size +:+ "
                --distributed-backend nccl

                --num-layers 2
                --hidden-size 64
                --num-attention-heads 2
                --seq-length " +:+ PyStr.of_int seq_len +:+ "
                --max-position-embeddings 1024
                --micro-batch-size 1
                --rampup-batch-size 2 2 " +:+ PyStr.of_int n_samples +:+ "
                --global-batch-size 16
                --train-samples " +:+ PyStr.of_int n_samples +:+ "

                --optimizer adam
                --adam-beta1 0.9
                --adam-beta2 0.95
                --adam-eps 1e-8
                --lr 1e-4
                --lr-warmup-samples 5
                --lr-decay-samples 6
                --clip-grad 1.0
                --weight-decay 1e-1
                --fp16

                --log-interval 5
                --save-interval 10
                --eval-interval 10
                --eval-iters 5
                --checkpoint-activations
                --glu-activation geglu
                --exit-interval " +:+ PyStr.of_int exit_interval +:+ "

                --merge-file " +:+ data_dir +:+ "/gpt2-tiny-merges.txt
                --vocab-file " +:+ data_dir +:+ "/gpt2-tiny-vocab.json
                --save " +:+ output_dir +:+ "/checkpoints
                --load " +:+ output_dir +:+ "/checkpoints
                --data-path " +:+ data_dir +:+ "/meg-gpt2-openwebtext_text_document
                --codecarbon-dir " +:+ output_dir +:+ "/codecarbon
                --tensorboard-dir " +:+ output_dir +:+ "/tensorboard
                --tensorboard-queue-size 5
                --log-timers-to-tensorboard
                --log-batch-size-to-tensorboard
                --log-validation-ppl-to-tensorboard
            ") in
    let ds_args :=
      PyStr.split
        ("
                --deepspeed
                --deepspeed_config " +:+ test_file_dir_str self +:+ "/ds_config.json
                --zero-stage 1
                --deepspeed-activation-checkpointing
            ") in
    inr (args, ds_args, num_gpus)
  else if String.eqb variation "cl" then
    let lr_decay_samples := 6 in
    let lr_decay_tokens := lr_decay_samples * seq_len in
    let train_tokens := n_samples * seq_len in
    let args :=
      PyStr.split
        ("
                --tensor-model-parallel-size " +:+ PyStr.of_int tp_size +:+ "
                --pipeline-model-parallel-size " +:+ PyStr.of_int pp_size +:+ "
                --distributed-backend nccl

                --num-layers 2
                --hidden-size 64
                --num-attention-heads 2
                --seq-length " +:+ PyStr.of_int seq_len +:+ "
                --max-position-embeddings 1024
                --micro-batch-size 1
                --global-batch-size 16
                --train-samples " +:+ PyStr.of_int (n_samples * 2) +:+ "
                --train-tokens " +:+ PyStr.of_int train_tokens +:+ "

                --optimizer adam
                --adam-beta1 0.9
                --adam-beta2 0.95
                --adam-eps 1e-8
                --lr 1e-4
                --lr-warmup-samples 5
                --lr-decay-tokens " +:+ PyStr.of_int lr_decay_tokens +:+ "
                --clip-grad 1.0
                --weight-decay 1e-1
                --fp16

                --log-interval 5
                --save-interval 10
                --eval-interval 10
                --eval-iters 5
                --checkpoint-activations
                --glu-activation geglu
                --exit-interval " +:+ PyStr.of_int exit_interval +:+ "

                --merge-file " +:+ data_dir +:+ "/gpt2-tiny-merges.txt
                --vocab-file " +:+ data_dir +:+ "/gpt2-tiny-vocab.json
                --save " +:+ output_dir +:+ "/checkpoints
                --load " +:+ output_dir +:+ "/checkpoints
                --data-path " +:+ data_dir +:+ "/meg-gpt2-openwebtext_text_document
                --codecarbon-dir " +:+ output_dir +:+ "/codecarbon
                --tensorboard-dir " +:+ output_dir +:+ "/tensorboard
                --tensorboard-queue-size 5
                --log-timers-to-tensorboard
                --log-batch-size-to-tensorboard
                --log-validation-ppl-to-tensorboard
            ") in
    let ds_args :=
      PyStr.split
        ("
                --deepspeed
                --deepspeed_config " +:+ test_file_dir_str self +:+ "/ds_config_cl.json
                --zero-stage 1
                --deepspeed-activation-checkpointing
            ") in
    inr (args, ds_args, num_gpus)
  else
    inl (ValueError ("Don't know of variation " +:+ variation)).

(** ** The file system seen by [setUp] *)

Inductive node : Type :=
| File (content : string)
| Dir.

Module os.

(** [os.path.exists(path)] *)
Definition path_exists (path : string) (fs : gmap string node) : bool :=
  match fs !! path with
  | Some _ => true
  | None => false
  end.

(** [os.unlink(path)]: removes a file; raises on a missing path and on a
    directory. *)
Definition unlink (path : string) (fs : gmap string node)
  : result (gmap string node) :=
  match fs !! path with
  | None => inl (FileNotFoundError path)
  | Some Dir => inl (IsADirectoryError path)
  | Some (File _) => inr (delete path fs)
  end.

End os.

(** [MegDSTestTraining.setUp(self)], after [super().setUp()] has resolved the
    paths of [self]: the removal of a stale kernel-build lock. *)
Definition setUp (self : TestCasePlus) (fs : gmap string node)
  : result (gmap string node) :=
  let meg_lock_file_path :=
    repo_root_dir_str self +:+ "/megatron/fused_kernels/build/lock" in
  if os.path_exists meg_lock_file_path fs
  then os.unlink meg_lock_file_path fs
  else inr fs.

(** ** The test driver

    The tests run in a world [W] that the harness does not own: the
    accelerators, the temporary directories, the training job and the files it
    leaves behind.  The helpers imported from [megatron.testing_utils] and the
    [glob] module are the parameters of the section.  [launched] records, in
    order, every command handed to [execute_subprocess_async]. *)

Record state (W : Type) : Type := {
  world : W;
  launched : list (list string)
}.
Arguments world {W} _.
Arguments launched {W} _.

Definition M (W A : Type) : Type := state W -> result A * state W.

Definition ret {W A} (a : A) : M W A := fun st => (inr a, st).

Definition bind {W A B} (m : M W A) (k : A -> M W B) : M W B :=
  fun st =>
    match m st with
    | (inl e, st') => (inl e, st')
    | (inr a, st') => k a st'
    end.

Definition raise {W A} (e : exn) : M W A := fun st => (inl e, st).

Definition lift {W A} (r : result A) : M W A := fun st => (r, st).

Declare Scope py_scope.
Delimit Scope py_scope with py.
Notation "x <- m ;; k" := (bind m (fun x => k))
  (at level 100, m at next level, right associativity) : py_scope.
Notation "m ;; k" := (bind m (fun _ => k))
  (at level 100, right associativity) : py_scope.

(** [self.assertIn(member, container)] on two strings.  The message is
    abridged: it names the member that was looked for. *)
Definition assertIn {W} (member container : string) : M W unit :=
  if PyStr.contains member container then ret tt
  else raise (AssertionError ("'" +:+ member +:+ "' not found")).

(** [self.assertEqual(first, second, msg)] on two integers. *)
Definition assertEqual {W} (first second : Z) (msg : string) : M W unit :=
  if Z.eqb first second then ret tt
  else raise (AssertionError
                (PyStr.of_int first +:+ " != " +:+ PyStr.of_int second
                 +:+ " : " +:+ msg)).

Section Driver.

Context {W Env : Type}.

(** [get_gpu_count()] *)
Variable get_gpu_count : W -> Z.
(** [self.get_auto_remove_tmp_dir()] *)
Variable get_auto_remove_tmp_dir : TestCasePlus -> W -> string * W.
(** [self.get_env()] *)
Variable get_env : TestCasePlus -> Env.
(** [execute_subprocess_async(cmd, env=...)] under [CaptureStdout]: the
    captured output, or the exception of a failed job, and the world the job
    leaves. *)
Variable execute_subprocess_async :
  list string -> Env -> W -> result string * W.
(** [glob.glob(pattern)] *)
Variable glob_glob : string -> W -> list string.

Definition gpu_count : M W Z :=
  fun st => (inr (get_gpu_count (world st)), st).

Definition tmp_dir (self : TestCasePlus) : M W string :=
  fun st =>
    let '(d, w) := get_auto_remove_tmp_dir self (world st) in
    (inr d, {| world := w; launched := launched st |}).

Definition execute (self : TestCasePlus) (cmd : list string) : M W string :=
  fun st =>
    let '(r, w) := execute_subprocess_async cmd (get_env self) (world st) in
    (r, {| world := w; launched := (launched st ++ [cmd])%list |}).

Definition glob (pattern : string) : M W (list string) :=
  fun st => (inr (glob_glob pattern (world st)), st).

Local Open Scope py_scope.

(** [MegDSTestTraining.test_training_all(self, variation)] *)
Definition test_training_all (self : TestCasePlus) (variation : string)
  : M W unit :=
  let src_dir := src_dir self in
  output_dir <- tmp_dir self ;;
  n <- gpu_count ;;
  config <- lift (get_variation_config self n variation output_dir) ;;
  let '(args, ds_args, num_gpus) := config in
  let script := [src_dir +:+ "/pretrain_gpt.py"] in
  let launcher := get_launcher num_gpus in
  let cmd := (launcher ++ script ++ args ++ ds_args)%list in
  (* 1. training from scratch *)
  cs_out <- execute self cmd ;;
  assertIn "DeepSpeed info" cs_out ;;
  assertIn "consumed samples" cs_out ;;
  assertIn ("Unable to find latest file at " +:+ output_dir
            +:+ "/checkpoints/latest") cs_out ;;
  assertIn "successfully saved checkpoint at iteration" cs_out ;;
  tensorboard_files <- glob (output_dir +:+ "/tensorboard/events*") ;;
  assertEqual (Z.of_nat (length tensorboard_files)) 1 "tensorboard files" ;;
  (* 2. training from the checkpoint: resume *)
  cs_out <- execute self cmd ;;
  assertIn ("successfully loaded checkpoint from " +:+ output_dir
            +:+ "/checkpoints") cs_out ;;
  assertIn "consumed samples" cs_out ;;
  assertIn "successfully saved checkpoint at iteration" cs_out ;;
  tensorboard_files <- glob (output_dir +:+ "/tensorboard/events*") ;;
  assertEqual (Z.of_nat (length tensorboard_files)) 2 "tensorboard files".

(** The command line of [test_training_prefix_lm_all] *)
Definition prefix_lm_config (self : TestCasePlus) (gpu_count : Z)
    (output_dir : string) : list string * list string * Z :=
  let data_dir := data_dir self +:+ "/gpt2" in
  let '(pp_size, tp_size, dp_size) := get_3d_dimensions gpu_count in
  let num_gpus := pp_size * tp_size * dp_size in
  let n_samples := 200 in
  let exit_interval := 20 in
  let args :=
    PyStr.split
      ("
            --tensor-model-parallel-size " +:+ PyStr.of_int tp_size +:+ "
            --pipeline-model-parallel-size " +:+ PyStr.of_int pp_size +:+ "
            --distributed-backend nccl

            --num-layers 2
            --hidden-size 64
            --num-attention-heads 2
            --seq-length 128
            --max-position-embeddings 1024
            --micro-batch-size 1
            --rampup-batch-size 2 2 " +:+ PyStr.of_int n_samples +:+ "
            --global-batch-size 16
            --train-samples " +:+ PyStr.of_int n_samples +:+ "
            --loss-on-targets-only

            --optimizer adam
            --adam-beta1 0.9
            --adam-beta2 0.95
            --adam-eps 1e-8
            --lr 1e-4
            --lr-warmup-samples 5
            --clip-grad 1.0
            --weight-decay 1e-1
            --fp16

            --log-interval 5
            --save-interval 10
            --eval-interval 10
            --eval-iters 5
            --checkpoint-activations
            --glu-activation geglu
            --exit-interval " +:+ PyStr.of_int exit_interval +:+ "

            --merge-file " +:+ data_dir +:+ "/gpt2-tiny-merges.txt
            --vocab-file " +:+ data_dir +:+ "/gpt2-tiny-vocab.json
            --save " +:+ output_dir +:+ "/checkpoints
            --load " +:+ output_dir +:+ "/checkpoints
            --data-path " +:+ data_dir +:+ "/meg-gpt2-openwebtext_text_document
            --codecarbon-dir " +:+ output_dir +:+ "/codecarbon
            --tensorboard-dir " +:+ output_dir +:+ "/tensorboard
            --tensorboard-queue-size 5
            --log-timers-to-tensorboard
            --log-batch-size-to-tensorboard
            --log-validation-ppl-to-tensorboard
        ") in
  let ds_args :=
    PyStr.split
      ("
            --deepspeed
            --deepspeed_config " +:+ test_file_dir_str self +:+ "/ds_config.json
            --zero-stage 1
            --deepspeed-activation-checkpointing
        ") in
  (args, ds_args, num_gpus).

(** [MegDSTestTraining.test_training_prefix_lm_all(self)] *)
Definition test_training_prefix_lm_all (self : TestCasePlus) : M W unit :=
  let src_dir := src_dir self in
  output_dir <- tmp_dir self ;;
  n <- gpu_count ;;
  let '(args, ds_args, num_gpus) := prefix_lm_config self n output_dir in
  let script := [src_dir +:+ "/pretrain_prefix_lm.py"] in
  let launcher := get_launcher num_gpus in
  let cmd := (launcher ++ script ++ args ++ ds_args)%list in
  (* 1. training from scratch *)
  cs_out <- execute self cmd ;;
  assertIn "DeepSpeed info" cs_out ;;
  assertIn "consumed samples" cs_out ;;
  assertIn ("Unable to find latest file at " +:+ output_dir
            +:+ "/checkpoints/latest") cs_out ;;
  assertIn "successfully saved checkpoint at iteration" cs_out ;;
  tensorboard_files <- glob (output_dir +:+ "/tensorboard/events*") ;;
  assertEqual (Z.of_nat (length tensorboard_files)) 1 "tensorboard files" ;;
  (* 2. training from the checkpoint: resume *)
  cs_out <- execute self cmd ;;
  assertIn ("successfully loaded checkpoint from " +:+ output_dir
            +:+ "/checkpoints") cs_out ;;
  assertIn "consumed samples" cs_out ;;
  assertIn "successfully saved checkpoint at iteration" cs_out ;;
  tensorboard_files <- glob (output_dir +:+ "/tensorboard/events*") ;;
  assertEqual (Z.of_nat (length tensorboard_files)) 2 "tensorboard files".

End Driver.

(** ** tools/eval_harness.py

    Python values, as far as the adapter handles them.  [VRef] stands for an
    object the adapter only passes around (a tokenizer, a tensor). *)

#[local] Set Warnings "-register-all".
Inductive value : Type :=
| VNone
| VBool (b : bool)
| VInt (n : Z)
| VStr (s : string)
| VList (l : list value)
| VRef (addr : nat).

Module BigScienceLM.

Section Methods.

(** The class namespace of the base class [TorchLM], which the file
    names but neither defines nor imports. *)
Variable TorchLM : gmap string value.

(** A call [obj.name(args, kwargs)] on an object the adapter does not
    own, with its positional and its keyword arguments. *)
Variable call_method :
  value -> string -> list value -> list (string * value) -> result value.

(** [self.name]: the instance dictionary first, then the classes.  The
    class body of [BigScienceLM] binds the five method names only. *)
Definition getattr (self : gmap string value) (name : string)
  : result value :=
  match self !! name with
  | Some v => inr v
  | None =>
      match TorchLM !! name with
      | Some v => inr v
      | None => inl (AttributeError name)
      end
  end.

(** [__init__(self, device='cuda', batch_size=1)]: the result and the
    instance dictionary it leaves. *)
Definition __init__ (self : gmap string value) (device batch_size : value)
  : result value * gmap string value :=
  (inr VNone, self).

(** [BigScienceLM(device, batch_size)]: a new object with an empty
    dictionary, initialised by [__init__]; an omitted argument takes its
    default. *)
Definition new (device batch_size : option value) : gmap string value :=
  let self : gmap string value := ∅ in
  snd (__init__ self (default (VStr "cuda") device)
                     (default (VInt 1) batch_size)).

(** [tok_encode(self, string)] *)
Definition tok_encode (self : gmap string value) (string : value)
  : result value :=
  match getattr self "tokenizer" with
  | inl e => inl e
  | inr tokenizer =>
      call_method tokenizer "encode" [string]
                  [("add_special_tokens", VBool false)]
  end.

(** [tok_decode(self, tokens)] *)
Definition tok_decode (self : gmap string value) (tokens : value)
  : result value :=
  match getattr self "tokenizer" with
  | inl e => inl e
  | inr tokenizer => call_method tokenizer "decode" [tokens] []
  end.

(** [_model_call(self, inps)]: a docstring and nothing else. *)
Definition _model_call (self : gmap string value) (inps : value)
  : result value :=
  inr VNone.

(** [_model_generate(self, context, max_length, eos_token_id)] *)
Definition _model_generate (self : gmap string value)
    (context max_length eos_token_id : value) : result value :=
  inr VNone.

  End Methods.

End BigScienceLM.

(** * Observations, sample inputs and the specification's wording *)

(** The token that follows the first occurrence of [flag] in an argument
    list: the value passed under that flag. *)
Fixpoint flag_value (flag : string) (args : list string) : option string :=
  match args with
  | [] => None
  | a :: rest => if String.eqb a flag then head rest else flag_value flag rest
  end.

(** The same value read as a decimal integer. *)
Definition flag_int (flag : string) (args : list string) : option Z :=
  match flag_value flag args with
  | Some v => PyStr.to_int v
  | None => None
  end.

(** A test case object to evaluate the definitions on. *)
Definition sample_case : TestCasePlus := {|
  data_dir := "/repo/data";
  test_file_dir_str := "/repo/tests";
  src_dir := "/repo";
  repo_root_dir_str := "/repo"
|}.

(** A toy world to evaluate the driver in: the files that exist, a training
    job that leaves a checkpoint marker and one more event file per run, and
    a [glob] for patterns of the form [prefix*]. *)
Module Demo.

Definition get_gpu_count (w : list string) : Z := 4.

Definition get_auto_remove_tmp_dir (self : TestCasePlus)
    (w : list string) : string * list string :=
  ("/tmp/out", "/tmp/out" :: w).

Definition get_env (self : TestCasePlus) : unit := tt.

Definition glob_glob (pattern : string) (w : list string)
  : list string :=
  let stem := String.substring 0 (String.length pattern - 1) pattern in
  List.filter (fun p => String.prefix stem p) w.

(** [banner_on_resume] tells whether a resumed job prints its
    "DeepSpeed info" banner again. *)
Definition trainer (banner_on_resume : bool) (cmd : list string) (env : unit)
    (w : list string) : result string * list string :=
  match flag_value "--save" cmd, flag_value "--tensorboard-dir" cmd with
  | Some ckpt, Some tb =>
      let n := Z.of_nat (length (glob_glob (tb +:+ "/events*") w)) in
      let head :=
        if existsb (String.eqb (ckpt +:+ "/latest")) w
        then (if banner_on_resume then "DeepSpeed info: version=0.5
" else "")
             +:+ "successfully loaded checkpoint from " +:+ ckpt +:+ "
"
        else "DeepSpeed info: version=0.5
WARNING: Unable to find latest file at " +:+ ckpt +:+ "/latest, will not load
" in
      (inr (head +:+ "iteration 10 | consumed samples: 60
successfully saved checkpoint at iteration 10
"),
       (tb +:+ "/events.out.tfevents." +:+ PyStr.of_int n)
         :: (ckpt +:+ "/latest") :: w)
  | _, _ => (inl (ExternalError "usage"), w)
  end.

Definition st0 : state (list string) :=
  {| world := []; launched := [] |}.

Definition lock_fs : gmap string node :=
  <["/repo/megatron/fused_kernels/build/lock" := File ""]>
    (<["/repo/README.md" := File "readme"]> ∅).

End Demo.

(** Three more jobs for the toy world: one that fails at once, one that
    runs and prints nothing, and one that fails when it finds a checkpoint. *)
Definition crashing_job (cmd : list string) (env : unit) (w : list string)
  : result string * list string :=
  (inl (ExternalError "exit status 1"), w).

Definition silent_job (cmd : list string) (env : unit) (w : list string)
  : result string * list string :=
  (inr "", w).

Definition job_crashing_on_resume (cmd : list string) (env : unit)
    (w : list string) : result string * list string :=
  match flag_value "--load" cmd with
  | Some ckpt =>
      if existsb (String.eqb (ckpt +:+ "/latest")) w
      then (inl (ExternalError "exit status 1"), w)
      else Demo.trainer true cmd env w
  | None => (inl (ExternalError "usage"), w)
  end.

(** The claim as the specification words it: the value under
    [--train-tokens] is the value under [--train-samples] of the same list
    times the sequence length 128, and the value under [--lr-decay-tokens] is
    [6 * 128]. *)
Definition cl_tokens_as_specified (args : list string) : Prop :=
  In "--train-tokens" args /\ In "--lr-decay-tokens" args /\
  exists train_samples,
    flag_int "--train-samples" args = Some train_samples /\
    flag_int "--train-tokens" args = Some (train_samples * 128) /\
    flag_int "--lr-decay-tokens" args = Some (6 * 128).

(** A tokenizer to evaluate the adapter with: the object at address 7
    encodes a string as its character codes and decodes any token list as
    "ok"; nothing else has methods. *)
Module DemoTokenizer.

Definition codes (s : string) : list value :=
  map (fun c => VInt (Z.of_nat (nat_of_ascii c))) (list_ascii_of_string s).

Definition call_method (obj : value) (name : string) (args : list value)
    (kwargs : list (string * value)) : result value :=
  match obj, args with
  | VRef 7, [VStr s] =>
      if String.eqb name "encode" then inr (VList (codes s))
      else inl (AttributeError name)
  | VRef 7, [VList _] =>
      if String.eqb name "decode" then inr (VStr "ok")
      else inl (AttributeError name)
  | _, _ => inl (AttributeError name)
  end.

(** An adapter instance that was given a tokenizer after construction. *)
Definition with_tokenizer : gmap string value :=
  <["tokenizer" := VRef 7]> (BigScienceLM.new None None).

End DemoTokenizer.

(** The claim as the specification words it: each of the four operations, on
    every instance and input, does nothing and yields nothing ([None]). *)
Definition all_bodies_placeholders
    (TorchLM : gmap string value)
    (call_method :
       value -> string -> list value -> list (string * value) -> result value)
  : Prop :=
  forall (self : gmap string value) (x y z : value),
    BigScienceLM.tok_encode TorchLM call_method self x = inr VNone /\
    BigScienceLM.tok_decode TorchLM call_method self x = inr VNone /\
    BigScienceLM._model_call self x = inr VNone /\
    BigScienceLM._model_generate self x y z = inr VNone.

(** The markers looked for after the first run. *)
Definition first_run_markers (output_dir : string) : list string :=
  ["DeepSpeed info"; "consumed samples";
   "Unable to find latest file at " +:+ output_dir +:+ "/checkpoints/latest";
   "successfully saved checkpoint at iteration"].

(** The markers of the second run as the specification lists them. *)
Definition resume_markers_as_specified (output_dir : string) : list string :=
  ["DeepSpeed info"; "consumed samples";
   "successfully loaded checkpoint from " +:+ output_dir +:+ "/checkpoints";
   "successfully saved checkpoint at iteration"].

(** The markers the tests look for after the second run. *)
Definition resume_markers (output_dir : string) : list string :=
  ["successfully loaded checkpoint from " +:+ output_dir +:+ "/checkpoints";
   "consumed samples";
   "successfully saved checkpoint at iteration"].

Definition markers_present (markers : list string) (out : string) : bool :=
  forallb (fun m => PyStr.contains m out) markers.

Section Policy.

Context {W Env : Type}.
Variable get_gpu_count : W -> Z.
Variable get_auto_remove_tmp_dir : TestCasePlus -> W -> string * W.
Variable get_env : TestCasePlus -> Env.
Variable execute_subprocess_async :
  list string -> Env -> W -> result string * W.
Variable glob_glob : string -> W -> list string.

(** A test [t], whose command line is built by [config] and [script],
    follows the two-run policy with second-run markers [resume] when:
    whenever both runs of the job complete, [t] passes exactly if each
    run's output holds its markers and the event-file glob matches one file
    after the first run and two after the second. *)
Definition follows_policy (resume : string -> list string)
    (t : M W unit) (self : TestCasePlus) (st : state W)
    (config : string -> Z -> result (list string * list string * Z))
    (script : string) : Prop :=
  forall output_dir w1 args ds_args num_gpus out1 w2 out2 w3,
    get_auto_remove_tmp_dir self (world st) = (output_dir, w1) ->
    config output_dir (get_gpu_count w1) = inr (args, ds_args, num_gpus) ->
    let cmd := (get_launcher num_gpus ++ [src_dir self +:+ script]
                ++ args ++ ds_args)%list in
    execute_subprocess_async cmd (get_env self) w1 = (inr out1, w2) ->
    execute_subprocess_async cmd (get_env self) w2 = (inr out2, w3) ->
    (fst (t st) = inr tt <->
     markers_present (first_run_markers output_dir) out1 = true /\
     length (glob_glob (output_dir +:+ "/tensorboard/events*") w2) = 1%nat /\
     markers_present (resume output_dir) out2 = true /\
     length (glob_glob (output_dir +:+ "/tensorboard/events*") w3) = 2%nat).

End Policy.

(** ** Reading a template word by word *)

(** No character of [s] is whitespace. *)
Fixpoint no_space (s : string) : bool :=
  match s with
  | EmptyString => true
  | String c s' => negb (PyStr.is_space c) && no_space s'
  end.


(** The characters of [s] before its first whitespace. *)
Fixpoint lead (s : string) : string :=
  match s with
  | EmptyString => ""
  | String c s' => if PyStr.is_space c then "" else String c (lead s')
  end.

(** What follows the first whitespace of [s], when there is one. *)
Fixpoint after_lead (s : string) : option string :=
  match s with
  | EmptyString => None
  | String c s' => if PyStr.is_space c then Some s' else after_lead s'
  end.

(** [lit] is a suffix of [s]. *)
Fixpoint is_suffix (lit s : string) : bool :=
  String.eqb lit s ||
  match s with
  | EmptyString => false
  | String _ s' => is_suffix lit s'
  end.

(** A token, unless it is empty, put in front of a token list. *)
Definition cons_token (tok : string) (l : list string) : list string :=
  if String.eqb tok "" then l else tok :: l.

(** The tokens completed while reading [s] with [tok] pending, and the token
    pending at its end. *)
Fixpoint scan (tok s : string) : list string * string :=
  match s with
  | EmptyString => ([], tok)
  | String c s' =>
      if PyStr.is_space c
      then (let '(l, t) := scan "" s' in (cons_token tok l, t))
      else scan (tok +:+ String c "") s'
  end.

(** A token of an argument list as the proofs see it: a literal, or a
    variable part followed by a literal. *)
Inductive token : Type :=
| Lit (s : string)
| Sym (x lit : string).

Definition denote (t : token) : string :=
  match t with
  | Lit s => s
  | Sym x lit => x +:+ lit
  end.

(** Whether [t] is the flag, when that can be told from its literal part. *)
Definition is_flag (flag : string) (t : token) : option bool :=
  match t with
  | Lit s => Some (String.eqb s flag)
  | Sym x lit => if is_suffix lit flag then None else Some false
  end.

(** [flag_value] on tokens; the outer [None] means undecided. *)
Fixpoint lookup (flag : string) (l : list token) : option (option token) :=
  match l with
  | [] => Some None
  | t :: rest =>
      match is_flag flag t with
      | Some true => Some (head rest)
      | Some false => lookup flag rest
      | None => None
      end
  end.

(** * Facts about the Python primitives *)

Lemma append_cons (c : ascii) (a b : string) :
  String c a +:+ b = String c (a +:+ b).
Proof. reflexivity. Qed.

Lemma prefix_iff (p s : string) :
  String.prefix p s = true <-> exists r, s = p +:+ r.
Proof.
  revert s. induction p as [| a p IH]; intros s.
  - split; [intros _; exists s; reflexivity | intros _; now destruct s].
  - destruct s as [| b s]; simpl.
    + split; [discriminate | intros [r Hr]; discriminate Hr].
    + destruct (ascii_dec a b) as [-> | Hab].
      * rewrite IH. split; intros [r Hr]; exists r;
          rewrite append_cons in *; congruence.
      * split; [discriminate |].
        intros [r Hr]. rewrite append_cons in Hr. congruence.
Qed.

Lemma contains_nil (needle : string) :
  PyStr.contains needle "" = String.prefix needle "" || false.
Proof. reflexivity. Qed.

Lemma contains_cons (needle : string) (c : ascii) (hay : string) :
  PyStr.contains needle (String c hay)
  = String.prefix needle (String c hay) || PyStr.contains needle hay.
Proof. reflexivity. Qed.

(** [PyStr.contains] is the substring test. *)
Lemma contains_iff (needle hay : string) :
  PyStr.contains needle hay = true <->
  exists before after, hay = before +:+ needle +:+ after.
Proof.
  split.
  - induction hay as [| c hay IH];
      [rewrite contains_nil | rewrite contains_cons];
      rewrite orb_true_iff; intros [H | H]; try discriminate H;
      try (apply prefix_iff in H as [r Hr]; exists "", r; exact Hr).
    destruct (IH H) as (b & a & ->). exists (String c b), a. reflexivity.
  - intros (before & after & ->).
    induction before as [| c before IH].
    + change ("" +:+ needle +:+ after) with (needle +:+ after).
      assert (Hp : String.prefix needle (needle +:+ after) = true)
        by (apply prefix_iff; exists after; reflexivity).
      destruct (needle +:+ after);
        [rewrite contains_nil | rewrite contains_cons]; rewrite Hp; reflexivity.
    + rewrite append_cons, contains_cons, IH. apply orb_true_r.
Qed.

Example get_launcher_4 :
  get_launcher 4 = ["deepspeed"; "--num_nodes"; "1"; "--num_gpus"; "4"].
Proof. reflexivity. Qed.

Example split_blank : PyStr.split "
     a  b
   " = ["a"; "b"].
Proof. reflexivity. Qed.

Example of_int_examples :
  PyStr.of_int 0 = "0" /\ PyStr.of_int 38400 = "38400" /\ PyStr.of_int (-7) = "-7"
  /\ PyStr.to_int "600" = Some 600.
Proof. repeat split; reflexivity. Qed.

(** * Degree selection and worker count *)

Lemma get_3d_dimensions_cases (n : Z) :
  (4 <= n /\ get_3d_dimensions n = (2, 2, 1)) \/
  (2 <= n < 4 /\ get_3d_dimensions n = (2, 1, 1)) \/
  (n < 2 /\ get_3d_dimensions n = (1, 1, 1)).
Proof.
  unfold get_3d_dimensions.
  destruct (Z.geb_spec n 4); [left; split; [lia | reflexivity] |].
  destruct (Z.geb_spec n 2); [right; left | right; right];
    (split; [lia | reflexivity]).
Qed.

(** C2: the degrees [(pipeline, tensor, data)] selected for [n] accelerators
    are [(2, 2, 1)] when [n >= 4], [(2, 1, 1)] when [2 <= n < 4] and
    [(1, 1, 1)] otherwise; the data-parallel degree is 1 in every case. *)
Theorem get_3d_dimensions_policy (n : Z) :
  (4 <= n -> get_3d_dimensions n = (2, 2, 1)) /\
  (2 <= n < 4 -> get_3d_dimensions n = (2, 1, 1)) /\
  (n < 2 -> get_3d_dimensions n = (1, 1, 1)) /\
  snd (get_3d_dimensions n) = 1.
Proof.
  destruct (get_3d_dimensions_cases n) as [[Hn E] | [[Hn E] | [Hn E]]];
    rewrite E; repeat split; intros; try reflexivity; lia.
Qed.

Lemma get_3d_dimensions_policy_witness :
  get_3d_dimensions 8 = (2, 2, 1) /\
  get_3d_dimensions 3 = (2, 1, 1) /\
  get_3d_dimensions 1 = (1, 1, 1).
Proof.
  split; [| split].
  - apply (proj1 (get_3d_dimensions_policy 8)). lia.
  - apply (proj1 (proj2 (get_3d_dimensions_policy 3))). lia.
  - apply (proj1 (proj2 (proj2 (get_3d_dimensions_policy 1)))). lia.
Defined.

(** What [get_variation_config] returns as its third component. *)
Lemma get_variation_config_num_gpus self n variation output_dir args ds_args w :
  get_variation_config self n variation output_dir = inr (args, ds_args, w) ->
  exists pp tp dp,
    get_3d_dimensions n = (pp, tp, dp) /\ dp = 1 /\ w = pp * tp * dp.
Proof.
  unfold get_variation_config.
  destruct (get_3d_dimensions_cases n) as [[_ E] | [[_ E] | [_ E]]];
    rewrite E;
    (destruct (String.eqb variation "base");
     [| destruct (String.eqb variation "cl"); [| discriminate]]);
    intros H; injection H as _ _ <-;
    do 3 eexists; repeat split; reflexivity.
Qed.

Lemma get_variation_config_known self n variation output_dir :
  variation = "base" \/ variation = "cl" ->
  exists args ds_args w,
    get_variation_config self n variation output_dir = inr (args, ds_args, w).
Proof.
  unfold get_variation_config.
  destruct (get_3d_dimensions n) as [[pp tp] dp].
  intros [-> | ->].
  - rewrite String.eqb_refl. do 3 eexists. reflexivity.
  - replace (String.eqb "cl" "base") with false by reflexivity.
    rewrite String.eqb_refl. do 3 eexists. reflexivity.
Qed.

(** C3: for a known variation and any output directory, configuration
    construction returns, as its worker count, the product
    [pipeline_size * tensor_size * data_size] of the selected degrees, and
    [data_size] is 1. *)
Theorem get_variation_config_worker_count self n variation output_dir :
  variation = "base" \/ variation = "cl" ->
  exists args ds_args pp tp dp,
    get_3d_dimensions n = (pp, tp, dp) /\ dp = 1 /\
    get_variation_config self n variation output_dir
      = inr (args, ds_args, pp * tp * dp).
Proof.
  intros Hv.
  destruct (get_variation_config_known self n variation output_dir Hv)
    as (args & ds_args & w & Hc).
  destruct (get_variation_config_num_gpus _ _ _ _ _ _ _ Hc)
    as (pp & tp & dp & Hd & Hdp & ->).
  exists args, ds_args, pp, tp, dp. auto.
Qed.

Lemma get_variation_config_worker_count_witness :
  exists args ds_args pp tp dp,
    get_3d_dimensions 4 = (pp, tp, dp) /\ dp = 1 /\
    get_variation_config sample_case 4 "cl" "/tmp/out"
      = inr (args, ds_args, pp * tp * dp).
Proof.
  apply (get_variation_config_worker_count sample_case 4 "cl" "/tmp/out").
  right. reflexivity.
Defined.

(** C9: for every accelerator count [n >= 0], the worker count that
    configuration construction derives is 1, 2 or 4: never 3, never above 4. *)
Theorem worker_count_in_1_2_4 self n variation output_dir args ds_args w :
  0 <= n ->
  get_variation_config self n variation output_dir = inr (args, ds_args, w) ->
  (w = 1 \/ w = 2 \/ w = 4) /\ w <> 3 /\ w <= 4.
Proof.
  intros _ Hc.
  destruct (get_variation_config_num_gpus _ _ _ _ _ _ _ Hc)
    as (pp & tp & dp & Hd & Hdp & ->).
  destruct (get_3d_dimensions_cases n) as [[_ E] | [[_ E] | [_ E]]];
    rewrite E in Hd; injection Hd as <- <- <-; lia.
Qed.

Lemma worker_count_in_1_2_4_witness :
  match get_variation_config sample_case 3 "base" "/tmp/out" with
  | inr (_, _, w) => (w = 1 \/ w = 2 \/ w = 4) /\ w <> 3 /\ w <= 4
  | inl _ => False
  end.
Proof.
  destruct (get_variation_config sample_case 3 "base" "/tmp/out")
    as [e | [[args ds_args] w]] eqn:E.
  - vm_compute in E. discriminate E.
  - apply (worker_count_in_1_2_4 sample_case 3 "base" "/tmp/out" args ds_args w);
      [lia | exact E].
Defined.

(** * Unknown variations *)

Lemma get_variation_config_unknown self n variation output_dir :
  variation <> "base" -> variation <> "cl" ->
  get_variation_config self n variation output_dir
    = inl (ValueError ("Don't know of variation " +:+ variation)).
Proof.
  intros Hb Hc. unfold get_variation_config.
  destruct (get_3d_dimensions n) as [[pp tp] dp].
  apply String.eqb_neq in Hb, Hc. rewrite Hb, Hc. reflexivity.
Qed.

(** C4: for a variation name other than "base" and "cl", configuration
    construction raises a [ValueError] whose message names the variation and
    returns no argument lists; the test that called it ends with that error
    and has launched no subprocess. *)
Theorem unknown_variation_fails_before_launch
    {W Env : Type} (get_gpu_count : W -> Z)
    (get_auto_remove_tmp_dir : TestCasePlus -> W -> string * W)
    (get_env : TestCasePlus -> Env)
    (execute_subprocess_async : list string -> Env -> W -> result string * W)
    (glob_glob : string -> W -> list string)
    (self : TestCasePlus) (variation : string) (st : state W) :
  variation <> "base" -> variation <> "cl" ->
  (forall n output_dir,
      get_variation_config self n variation output_dir
        = inl (ValueError ("Don't know of variation " +:+ variation))) /\
  let r := test_training_all get_gpu_count get_auto_remove_tmp_dir get_env
             execute_subprocess_async glob_glob self variation st in
  fst r = inl (ValueError ("Don't know of variation " +:+ variation)) /\
  launched (snd r) = launched st.
Proof.
  intros Hb Hc. split.
  - intros n output_dir. now apply get_variation_config_unknown.
  - unfold test_training_all, bind, tmp_dir, gpu_count, lift.
    destruct (get_auto_remove_tmp_dir self (world st)) as [d w].
    cbv zeta. cbn [world].
    rewrite (get_variation_config_unknown self _ variation d Hb Hc).
    split; reflexivity.
Qed.

Lemma unknown_variation_fails_before_launch_witness :
  let r := test_training_all Demo.get_gpu_count Demo.get_auto_remove_tmp_dir
             Demo.get_env (Demo.trainer true) Demo.glob_glob
             sample_case "bogus" Demo.st0 in
  fst r = inl (ValueError "Don't know of variation bogus") /\
  launched (snd r) = [].
Proof.
  apply (unknown_variation_fails_before_launch
           Demo.get_gpu_count Demo.get_auto_remove_tmp_dir Demo.get_env
           (Demo.trainer true) Demo.glob_glob sample_case "bogus" Demo.st0);
    discriminate.
Defined.

(** * The stale kernel-build lock *)

(** C8: when the lock path holds a file, or nothing, [setUp] completes without
    an error; afterwards the lock is absent and every other path is as it
    was. *)
Theorem setUp_removes_stale_lock (self : TestCasePlus) (fs : gmap string node) :
  let lock := repo_root_dir_str self +:+ "/megatron/fused_kernels/build/lock" in
  (fs !! lock = None \/ exists c, fs !! lock = Some (File c)) ->
  exists fs',
    setUp self fs = inr fs' /\
    fs' !! lock = None /\
    (forall p, p <> lock -> fs' !! p = fs !! p) /\
    (fs !! lock = None -> fs' = fs).
Proof.
  intros lock H. unfold setUp, os.path_exists, os.unlink. fold lock.
  destruct H as [E | [c E]]; rewrite E.
  - exists fs. auto.
  - exists (delete lock fs). split; [reflexivity |]. split; [| split].
    + apply lookup_delete_eq.
    + intros p Hp. now apply lookup_delete_ne.
    + discriminate.
Qed.

Lemma setUp_removes_stale_lock_witness :
  exists fs',
    setUp sample_case Demo.lock_fs = inr fs' /\
    fs' !! "/repo/megatron/fused_kernels/build/lock" = None /\
    (forall p, p <> "/repo/megatron/fused_kernels/build/lock" ->
               fs' !! p = Demo.lock_fs !! p) /\
    (Demo.lock_fs !! "/repo/megatron/fused_kernels/build/lock" = None ->
     fs' = Demo.lock_fs).
Proof.
  apply (setUp_removes_stale_lock sample_case Demo.lock_fs).
  right. exists "". reflexivity.
Defined.

(** Outside the claim: a directory at the lock path makes [os.unlink] raise. *)
Example setUp_lock_is_directory :
  setUp sample_case {[ "/repo/megatron/fused_kernels/build/lock" := Dir ]}
  = inl (IsADirectoryError "/repo/megatron/fused_kernels/build/lock").
Proof. reflexivity. Qed.

(** * The token flags of the curriculum-learning variation *)

Lemma flag_value_In (flag : string) (args : list string) (v : string) :
  flag_value flag args = Some v -> In flag args.
Proof.
  induction args as [| a rest IH]; simpl; [discriminate |].
  destruct (String.eqb_spec a flag) as [-> | _]; auto.
Qed.

Lemma flag_int_In (flag : string) (args : list string) (v : Z) :
  flag_int flag args = Some v -> In flag args.
Proof.
  unfold flag_int. destruct (flag_value flag args) eqn:E; [| discriminate].
  intros _. eapply flag_value_In, E.
Qed.

(** C5, as stated, fails: with 4 accelerators the list carries
    [--train-samples 600] and [--train-tokens 38400], and [600 * 128] is
    76800. *)
Lemma cl_train_tokens_not_from_train_samples :
  exists args ds_args w,
    get_variation_config sample_case 4 "cl" "/tmp/out"
      = inr (args, ds_args, w) /\
    flag_int "--train-samples" args = Some 600 /\
    flag_int "--train-tokens" args = Some 38400 /\
    ~ cl_tokens_as_specified args.
Proof.
  eexists _, _, _. split; [vm_compute; reflexivity |].
  split; [vm_compute; reflexivity |]. split; [vm_compute; reflexivity |].
  intros (_ & _ & ts & H1 & H2 & _).
  vm_compute in H1. vm_compute in H2.
  injection H1 as <-. discriminate H2.
Qed.

(** C5, amended: for the "cl" variation the argument list contains
    [--train-tokens] and [--lr-decay-tokens]; the first carries
    [n_samples * seq_length = 300 * 128], where [n_samples = 300] is half of
    the 600 passed under [--train-samples], and the second carries
    [lr_decay_samples * seq_length = 6 * 128]; [--seq-length] carries 128. *)
Theorem cl_token_flags (self : TestCasePlus) (n : Z) (output_dir : string) :
  exists args ds_args w,
    get_variation_config self n "cl" output_dir = inr (args, ds_args, w) /\
    In "--train-tokens" args /\ In "--lr-decay-tokens" args /\
    flag_int "--seq-length" args = Some 128 /\
    flag_int "--train-samples" args = Some (2 * 300) /\
    flag_int "--train-tokens" args = Some (300 * 128) /\
    flag_int "--lr-decay-tokens" args = Some (6 * 128).
Proof.
  unfold get_variation_config.
  destruct (get_3d_dimensions_cases n) as [[_ E] | [[_ E] | [_ E]]];
    rewrite E; cbv beta iota zeta;
    replace (String.eqb "cl" "base") with false by reflexivity;
    rewrite String.eqb_refl;
    eexists _, _, _; (split; [reflexivity |]);
    (match goal with
     | |- In _ ?args /\ _ =>
         assert (Ht : flag_int "--train-tokens" args = Some (300 * 128))
           by (vm_compute; reflexivity);
         assert (Hl : flag_int "--lr-decay-tokens" args = Some (6 * 128))
           by (vm_compute; reflexivity);
         split; [exact (flag_int_In _ _ _ Ht) |];
         split; [exact (flag_int_In _ _ _ Hl) |];
         split; [vm_compute; reflexivity |];
         split; [vm_compute; reflexivity |];
         split; [exact Ht | exact Hl]
     end).
Qed.

(** * The eval adapter *)

(** C6, as stated, fails: with a tokenizer attached, encoding "hi" yields
    the token list [104; 105], and on a fresh instance it raises. *)
Lemma tok_encode_is_not_a_placeholder :
  BigScienceLM.tok_encode ∅ DemoTokenizer.call_method
    DemoTokenizer.with_tokenizer (VStr "hi")
    = inr (VList [VInt 104; VInt 105]) /\
  BigScienceLM.tok_encode ∅ DemoTokenizer.call_method
    (BigScienceLM.new None None) (VStr "hi")
    = inl (AttributeError "tokenizer") /\
  ~ all_bodies_placeholders ∅ DemoTokenizer.call_method.
Proof.
  split; [reflexivity |]. split; [reflexivity |].
  intros H.
  destruct (H DemoTokenizer.with_tokenizer (VStr "hi") VNone VNone) as [E _].
  vm_compute in E. discriminate E.
Qed.

(** C6, amended: the forward pass and the generation method are
    placeholders, returning [None] for every instance and input, and the
    constructor leaves the instance as it was; tokenize and detokenize are
    implemented: with a tokenizer in reach they return what its [encode]
    (special tokens off) and its [decode] return. *)
Theorem model_methods_are_placeholders
    (TorchLM : gmap string value)
    (call_method :
       value -> string -> list value -> list (string * value) -> result value)
    (self : gmap string value) (x y z : value) :
  BigScienceLM._model_call self x = inr VNone /\
  BigScienceLM._model_generate self x y z = inr VNone /\
  BigScienceLM.__init__ self x y = (inr VNone, self) /\
  (forall tokenizer,
      BigScienceLM.getattr TorchLM self "tokenizer" = inr tokenizer ->
      BigScienceLM.tok_encode TorchLM call_method self x
        = call_method tokenizer "encode" [x]
            [("add_special_tokens", VBool false)] /\
      BigScienceLM.tok_decode TorchLM call_method self x
        = call_method tokenizer "decode" [x] []).
Proof.
  split; [reflexivity |]. split; [reflexivity |]. split; [reflexivity |].
  intros tokenizer H.
  unfold BigScienceLM.tok_encode, BigScienceLM.tok_decode.
  rewrite H. split; reflexivity.
Qed.

Lemma model_methods_are_placeholders_witness :
  BigScienceLM._model_call DemoTokenizer.with_tokenizer (VList [VInt 1])
    = inr VNone /\
  BigScienceLM._model_generate DemoTokenizer.with_tokenizer
    (VList [VInt 1]) (VInt 16) (VInt 0) = inr VNone /\
  BigScienceLM.tok_decode ∅ DemoTokenizer.call_method
    DemoTokenizer.with_tokenizer (VList [VInt 1])
    = DemoTokenizer.call_method (VRef 7) "decode" [VList [VInt 1]] [].
Proof.
  destruct (model_methods_are_placeholders ∅ DemoTokenizer.call_method
              DemoTokenizer.with_tokenizer (VList [VInt 1]) (VInt 16) (VInt 0))
    as (Hcall & Hgen & _ & Htok).
  split; [exact Hcall |]. split; [exact Hgen |].
  apply (Htok (VRef 7)). reflexivity.
Defined.

(** C7: when the instance reaches a tokenizer, encoding a string returns
    exactly what the tokenizer's [encode] returns for that string with
    [add_special_tokens=False], an exception included. *)
Theorem tok_encode_delegates
    (TorchLM : gmap string value)
    (call_method :
       value -> string -> list value -> list (string * value) -> result value)
    (self : gmap string value) (tokenizer : value) (s : string) :
  BigScienceLM.getattr TorchLM self "tokenizer" = inr tokenizer ->
  BigScienceLM.tok_encode TorchLM call_method self (VStr s)
    = call_method tokenizer "encode" [VStr s]
        [("add_special_tokens", VBool false)].
Proof.
  intros H. unfold BigScienceLM.tok_encode. rewrite H. reflexivity.
Qed.

Lemma tok_encode_delegates_witness :
  BigScienceLM.tok_encode ∅ DemoTokenizer.call_method
    DemoTokenizer.with_tokenizer (VStr "hi")
  = DemoTokenizer.call_method (VRef 7) "encode" [VStr "hi"]
      [("add_special_tokens", VBool false)].
Proof.
  apply (tok_encode_delegates ∅ DemoTokenizer.call_method
           DemoTokenizer.with_tokenizer (VRef 7) "hi").
  reflexivity.
Defined.

(** C10: the constructor ignores [device] and [batch_size] and assigns no
    attribute; as long as the base class binds no [tokenizer] either, encode
    and decode on a freshly constructed instance raise [AttributeError] for
    every input. *)
Theorem fresh_instance_has_no_tokenizer
    (TorchLM : gmap string value)
    (call_method :
       value -> string -> list value -> list (string * value) -> result value)
    (device batch_size : option value) (x : value) :
  TorchLM !! "tokenizer" = None ->
  BigScienceLM.new device batch_size = ∅ /\
  BigScienceLM.new device batch_size = BigScienceLM.new None None /\
  BigScienceLM.tok_encode TorchLM call_method
    (BigScienceLM.new device batch_size) x = inl (AttributeError "tokenizer") /\
  BigScienceLM.tok_decode TorchLM call_method
    (BigScienceLM.new device batch_size) x = inl (AttributeError "tokenizer").
Proof.
  intros H.
  unfold BigScienceLM.tok_encode, BigScienceLM.tok_decode, BigScienceLM.getattr,
    BigScienceLM.new, BigScienceLM.__init__. cbn [snd].
  rewrite lookup_empty, H. repeat split.
Qed.

Lemma fresh_instance_has_no_tokenizer_witness :
  BigScienceLM.new (Some (VStr "cpu")) (Some (VInt 8)) = ∅ /\
  BigScienceLM.new (Some (VStr "cpu")) (Some (VInt 8))
    = BigScienceLM.new None None /\
  BigScienceLM.tok_encode ∅ DemoTokenizer.call_method
    (BigScienceLM.new (Some (VStr "cpu")) (Some (VInt 8))) (VStr "hi")
    = inl (AttributeError "tokenizer") /\
  BigScienceLM.tok_decode ∅ DemoTokenizer.call_method
    (BigScienceLM.new (Some (VStr "cpu")) (Some (VInt 8))) (VStr "hi")
    = inl (AttributeError "tokenizer").
Proof.
  apply (fresh_instance_has_no_tokenizer ∅ DemoTokenizer.call_method
           (Some (VStr "cpu")) (Some (VInt 8)) (VStr "hi")).
  reflexivity.
Defined.

(** * The assertion policy over the two runs *)

Section PolicyFacts.

Context {W Env : Type}.
Variable get_gpu_count : W -> Z.
Variable get_auto_remove_tmp_dir : TestCasePlus -> W -> string * W.
Variable get_env : TestCasePlus -> Env.
Variable execute_subprocess_async :
  list string -> Env -> W -> result string * W.
Variable glob_glob : string -> W -> list string.

(** One assertion of the test: split on its condition; when it fails the
    test has raised and the policy is violated. *)
Ltac case_assert :=
  match goal with
  | |- context [PyStr.contains ?m ?out] =>
      destruct (PyStr.contains m out);
      [| split; [discriminate | intros (? & ? & ? & ?); discriminate]]
  | |- context [Z.eqb (Z.of_nat ?n) ?k] =>
      destruct (Z.eqb_spec (Z.of_nat n) k);
      [| split; [discriminate | intros (? & ? & ? & ?); lia]]
  end.

(** The two runs, step by step, once the command line is known. *)
Ltac two_runs Hrun1 Hrun2 :=
  rewrite Hrun1; cbn [world launched];
  unfold assertIn, assertEqual, ret, raise, markers_present,
    first_run_markers, resume_markers, forallb;
  repeat (cbv beta iota; cbn [world launched fst snd];
          first [rewrite Hrun2 | case_assert]);
  split; [intros _; repeat split; lia | reflexivity].

Lemma test_training_all_policy self variation st :
  follows_policy get_gpu_count get_auto_remove_tmp_dir get_env
    execute_subprocess_async glob_glob resume_markers
    (test_training_all get_gpu_count get_auto_remove_tmp_dir get_env
       execute_subprocess_async glob_glob self variation)
    self st
    (fun output_dir n => get_variation_config self n variation output_dir)
    "/pretrain_gpt.py".
Proof.
  intros output_dir w1 args ds_args num_gpus out1 w2 out2 w3 Htmp Hcfg cmd
    Hrun1 Hrun2.
  unfold test_training_all, bind, tmp_dir, gpu_count, lift, execute, glob.
  rewrite Htmp. cbv zeta. cbn [world launched].
  rewrite Hcfg. cbn [world launched]. fold cmd.
  two_runs Hrun1 Hrun2.
Qed.

Lemma test_training_prefix_lm_all_policy self st :
  follows_policy get_gpu_count get_auto_remove_tmp_dir get_env
    execute_subprocess_async glob_glob resume_markers
    (test_training_prefix_lm_all get_gpu_count get_auto_remove_tmp_dir
       get_env execute_subprocess_async glob_glob self)
    self st
    (fun output_dir n => inr (prefix_lm_config self n output_dir))
    "/pretrain_prefix_lm.py".
Proof.
  intros output_dir w1 args ds_args num_gpus out1 w2 out2 w3 Htmp Hcfg cmd
    Hrun1 Hrun2.
  injection Hcfg as Hcfg.
  unfold test_training_prefix_lm_all, bind, tmp_dir, gpu_count, lift,
    execute, glob.
  rewrite Htmp. cbv zeta. cbn [world launched].
  rewrite Hcfg. cbn [world launched]. fold cmd.
  two_runs Hrun1 Hrun2.
Qed.

(** C1, amended: in every scenario (the "base" and "cl" variations and the
    prefix-LM test), when both runs of the job complete the test passes
    exactly if: the first run's output contains "DeepSpeed info",
    "consumed samples", "Unable to find latest file at
      <output_dir>/checkpoints/latest" and "successfully saved checkpoint at
      iteration" and the event-file glob then matches 1 file; and the second
    run's output contains "successfully loaded checkpoint from
      <output_dir>/checkpoints", "consumed samples" and "successfully saved
      checkpoint at iteration" and the glob then matches 2 files.
    "DeepSpeed info" is looked for after the first run only. *)
Theorem two_run_assertion_policy (self : TestCasePlus) (st : state W) :
  (forall variation,
      follows_policy get_gpu_count get_auto_remove_tmp_dir get_env
        execute_subprocess_async glob_glob resume_markers
        (test_training_all get_gpu_count get_auto_remove_tmp_dir get_env
           execute_subprocess_async glob_glob self variation)
        self st
        (fun output_dir n =>
           get_variation_config self n variation output_dir)
        "/pretrain_gpt.py") /\
  follows_policy get_gpu_count get_auto_remove_tmp_dir get_env
    execute_subprocess_async glob_glob resume_markers
    (test_training_prefix_lm_all get_gpu_count get_auto_remove_tmp_dir
       get_env execute_subprocess_async glob_glob self)
    self st
    (fun output_dir n => inr (prefix_lm_config self n output_dir))
    "/pretrain_prefix_lm.py".
Proof.
  split.
  - intros variation. apply test_training_all_policy.
  - apply test_training_prefix_lm_all_policy.
Qed.

End PolicyFacts.

Lemma two_run_assertion_policy_witness :
  fst (test_training_all Demo.get_gpu_count Demo.get_auto_remove_tmp_dir
         Demo.get_env (Demo.trainer true) Demo.glob_glob
         sample_case "cl" Demo.st0) = inr tt.
Proof.
  edestruct (proj1 (two_run_assertion_policy
                      Demo.get_gpu_count Demo.get_auto_remove_tmp_dir
                      Demo.get_env (Demo.trainer true) Demo.glob_glob
                      sample_case Demo.st0) "cl") as [_ Hpass];
    [reflexivity | vm_compute; reflexivity | vm_compute; reflexivity
    | vm_compute; reflexivity | ].
  apply Hpass. vm_compute. auto.
Defined.

(** C1, as stated, fails: a resumed job that does not print "DeepSpeed info"
    again passes the test, so that marker is not required of the second
    run. *)
Lemma resume_banner_is_not_required :
  fst (test_training_all Demo.get_gpu_count Demo.get_auto_remove_tmp_dir
         Demo.get_env (Demo.trainer false) Demo.glob_glob
         sample_case "base" Demo.st0) = inr tt /\
  ~ follows_policy Demo.get_gpu_count Demo.get_auto_remove_tmp_dir
      Demo.get_env (Demo.trainer false) Demo.glob_glob
      resume_markers_as_specified
      (test_training_all Demo.get_gpu_count Demo.get_auto_remove_tmp_dir
         Demo.get_env (Demo.trainer false) Demo.glob_glob sample_case "base")
      sample_case Demo.st0
      (fun output_dir n => get_variation_config sample_case n "base" output_dir)
      "/pretrain_gpt.py".
Proof.
  assert (Hpass :
    fst (test_training_all Demo.get_gpu_count Demo.get_auto_remove_tmp_dir
           Demo.get_env (Demo.trainer false) Demo.glob_glob
           sample_case "base" Demo.st0) = inr tt)
    by (vm_compute; reflexivity).
  split; [exact Hpass |].
  intros H.
  edestruct H as [Hmust _];
    [reflexivity | vm_compute; reflexivity | vm_compute; reflexivity
    | vm_compute; reflexivity | ].
  destruct (Hmust Hpass) as (_ & _ & Hbanner & _).
  vm_compute in Hbanner. discriminate Hbanner.
Qed.

(** * Splitting a template with variable parts *)

Lemma append_nil_r (s : string) : s +:+ "" = s.
Proof. induction s as [| c s IH]; [reflexivity |]. rewrite append_cons, IH. reflexivity. Qed.

Lemma append_assoc (a b c : string) : (a +:+ b) +:+ c = a +:+ (b +:+ c).
Proof.
  induction a as [| x a IH]; [reflexivity |].
  rewrite !append_cons, IH. reflexivity.
Qed.

Lemma append_eq_nil (a b : string) : a +:+ b = "" -> a = "" /\ b = "".
Proof. destruct a; [intros H; split; [reflexivity | exact H] | discriminate]. Qed.

Lemma split_from_nil (tok : string) :
  PyStr.split_from tok "" = cons_token tok [].
Proof. reflexivity. Qed.

Lemma split_from_cons (tok : string) (c : ascii) (s : string) :
  PyStr.split_from tok (String c s)
  = if PyStr.is_space c then cons_token tok (PyStr.split_from "" s)
    else PyStr.split_from (tok +:+ String c "") s.
Proof. unfold cons_token. simpl. destruct (PyStr.is_space c), (String.eqb tok ""); reflexivity. Qed.

(** Splitting reads a string word by word: up to the first whitespace of
    [s] it extends the current token, and starts afresh behind it. *)
Lemma split_from_lead (tok s r : string) :
  PyStr.split_from tok (s +:+ r)
  = match after_lead s with
    | None => PyStr.split_from (tok +:+ s) r
    | Some s' => cons_token (tok +:+ lead s) (PyStr.split_from "" (s' +:+ r))
    end.
Proof.
  revert tok. induction s as [| c s IH]; intros tok.
  - simpl. rewrite append_nil_r. reflexivity.
  - rewrite append_cons, split_from_cons. simpl.
    destruct (PyStr.is_space c).
    + rewrite append_nil_r. reflexivity.
    + rewrite IH. destruct (after_lead s);
        rewrite append_assoc; reflexivity.
Qed.

Lemma after_lead_no_space (s : string) :
  no_space s = true -> after_lead s = None.
Proof.
  induction s as [| c s IH]; simpl; [reflexivity |].
  destruct (PyStr.is_space c); simpl; [discriminate | exact IH].
Qed.

Lemma no_space_app (a b : string) :
  no_space (a +:+ b) = no_space a && no_space b.
Proof.
  induction a as [| c a IH]; [reflexivity |].
  rewrite append_cons. simpl. rewrite IH, andb_assoc. reflexivity.
Qed.

(** A whitespace-free piece only extends the current token. *)
Lemma split_from_hole (tok x r : string) :
  no_space x = true ->
  PyStr.split_from tok (x +:+ r) = PyStr.split_from (tok +:+ x) r.
Proof. intros H. rewrite split_from_lead, (after_lead_no_space x H). reflexivity. Qed.

Lemma split_from_word (tok x : string) :
  no_space x = true -> PyStr.split_from tok x = cons_token (tok +:+ x) [].
Proof.
  intros H. rewrite <- (append_nil_r x) at 1.
  rewrite split_from_hole by exact H. reflexivity.
Qed.

Lemma split_from_last (tok s : string) :
  PyStr.split_from tok s
  = match after_lead s with
    | None => cons_token (tok +:+ s) []
    | Some s' => cons_token (tok +:+ lead s) (PyStr.split_from "" s')
    end.
Proof.
  rewrite <- (append_nil_r s) at 1. rewrite split_from_lead.
  destruct (after_lead s); rewrite ?append_nil_r; reflexivity.
Qed.

Lemma cons_token_app_r (a b : string) (l : list string) :
  String.eqb b "" = false -> cons_token (a +:+ b) l = (a +:+ b) :: l.
Proof.
  intros H. unfold cons_token.
  destruct (String.eqb_spec (a +:+ b) "") as [E | _]; [| reflexivity].
  apply append_eq_nil in E as [_ ->]. discriminate H.
Qed.

Lemma cons_token_app_l (a b : string) (l : list string) :
  a <> "" -> cons_token (a +:+ b) l = (a +:+ b) :: l.
Proof.
  intros H. unfold cons_token.
  destruct (String.eqb_spec (a +:+ b) "") as [E | _]; [| reflexivity].
  apply append_eq_nil in E as [-> _]. contradiction.
Qed.

Lemma is_suffix_app (x lit : string) : is_suffix lit (x +:+ lit) = true.
Proof.
  induction x as [| c x IH].
  - destruct lit; simpl; rewrite ?Ascii.eqb_refl, ?String.eqb_refl; reflexivity.
  - rewrite append_cons. simpl. rewrite IH. apply orb_true_r.
Qed.

Lemma eqb_app_not_suffix (x lit f : string) :
  is_suffix lit f = false -> String.eqb (x +:+ lit) f = false.
Proof.
  intros H. apply String.eqb_neq. intros <-.
  rewrite is_suffix_app in H. discriminate H.
Qed.

Lemma flag_value_skip (flag a : string) (rest : list string) :
  String.eqb a flag = false ->
  flag_value flag (a :: rest) = flag_value flag rest.
Proof. intros H. simpl. rewrite H. reflexivity. Qed.

Lemma flag_value_here (flag v : string) (rest : list string) :
  flag_value flag (flag :: v :: rest) = Some v.
Proof. simpl. rewrite String.eqb_refl. reflexivity. Qed.



Lemma cons_token_app (tok : string) (l m : list string) :
  cons_token tok (l ++ m)%list = (cons_token tok l ++ m)%list.
Proof. unfold cons_token. destruct (String.eqb tok ""); reflexivity. Qed.

Lemma split_from_scan (tok s r : string) :
  PyStr.split_from tok (s +:+ r)
  = (fst (scan tok s) ++ PyStr.split_from (snd (scan tok s)) r)%list.
Proof.
  revert tok. induction s as [| c s IH]; intros tok; [reflexivity |].
  rewrite append_cons, split_from_cons. simpl.
  destruct (PyStr.is_space c); simpl.
  - rewrite IH, cons_token_app. destruct (scan "" s). reflexivity.
  - apply IH.
Qed.

Lemma split_from_scan_eq (tok s r : string) (l : list string) (t : string) :
  scan tok s = (l, t) ->
  PyStr.split_from tok (s +:+ r) = (l ++ PyStr.split_from t r)%list.
Proof. intros H. rewrite split_from_scan, H. reflexivity. Qed.

Lemma split_from_lead_eq (tok s r s' ld : string) :
  after_lead s = Some s' -> lead s = ld ->
  String.eqb ld "" = false ->
  PyStr.split_from tok (s +:+ r)
  = (tok +:+ ld) :: PyStr.split_from "" (s' +:+ r).
Proof.
  intros H1 H2 H3. rewrite split_from_lead, H1, H2.
  apply cons_token_app_r, H3.
Qed.

Lemma split_from_last_eq (tok s s' ld : string) (l : list string) :
  after_lead s = Some s' -> lead s = ld ->
  String.eqb ld "" = false ->
  PyStr.split s' = l ->
  PyStr.split_from tok s = (tok +:+ ld) :: l.
Proof.
  intros H1 H2 H3 <-. rewrite split_from_last, H1, H2.
  apply cons_token_app_r, H3.
Qed.

Ltac is_lit t :=
  lazymatch t with
  | String _ _ => idtac
  | EmptyString => idtac
  end.

Ltac no_space_tac :=
  repeat rewrite no_space_app;
  repeat match goal with H : no_space _ = true |- _ => rewrite H end;
  reflexivity.

(** One step of reading a template: a literal piece behind a literal token
    is scanned at once; behind a token with a variable part its first word
    completes that token; any other piece is free of whitespace and extends
    the token. *)
Ltac split_step :=
  lazymatch goal with
  | |- context [PyStr.split_from ?tok (?p +:+ ?r)] =>
      let pv := eval vm_compute in p in
      tryif is_lit pv then
        tryif is_lit tok then
          let v := eval vm_compute in (scan tok p) in
          lazymatch v with
          | (?l, ?t) =>
              rewrite (split_from_scan_eq tok p r l t)
                by (vm_compute; reflexivity)
          end
        else
          let al := eval vm_compute in (after_lead p) in
          let ld := eval vm_compute in (lead p) in
          lazymatch al with
          | Some ?s' =>
              rewrite (split_from_lead_eq tok p r s' ld)
                by (vm_compute; reflexivity)
          end
      else
        rewrite (split_from_hole tok p r) by no_space_tac
  | |- context [PyStr.split_from ?tok ?p] =>
      let pv := eval vm_compute in p in
      tryif is_lit pv then
        tryif is_lit tok then
          let l := eval vm_compute in (PyStr.split_from tok p) in
          change (PyStr.split_from tok p) with l
        else
          let al := eval vm_compute in (after_lead p) in
          let ld := eval vm_compute in (lead p) in
          lazymatch al with
          | Some ?s' =>
              let l := eval vm_compute in (PyStr.split s') in
              rewrite (split_from_last_eq tok p s' ld l)
                by (vm_compute; reflexivity)
          end
      else fail
  end.


Lemma no_space_uint (d : Decimal.uint) :
  no_space (NilEmpty.string_of_uint d) = true.
Proof. induction d; simpl; auto. Qed.

Lemma of_int_no_space (n : Z) : no_space (PyStr.of_int n) = true.
Proof.
  unfold PyStr.of_int, NilZero.string_of_int, NilZero.string_of_uint.
  destruct (Z.to_int n) as [d | d]; destruct d; try reflexivity;
    lazymatch goal with
    | |- no_space (NilEmpty.string_of_uint ?u) = true =>
        exact (no_space_uint u)
    | |- no_space (String _ (NilEmpty.string_of_uint ?u)) = true =>
        exact (no_space_uint u)
    end.
Qed.

Lemma of_int_nonempty (n : Z) : String.eqb (PyStr.of_int n) "" = false.
Proof.
  unfold PyStr.of_int, NilZero.string_of_int, NilZero.string_of_uint.
  destruct (Z.to_int n) as [d | d]; destruct d; reflexivity.
Qed.

Lemma to_int_of_int (n : Z) : PyStr.to_int (PyStr.of_int n) = Some n.
Proof.
  unfold PyStr.to_int, PyStr.of_int.
  rewrite NilZero.isi.
  - simpl. rewrite DecimalZ.of_to. reflexivity.
  - destruct n; simpl; try discriminate;
      intros H; injection H as H; exact (Unsigned.to_uint_nonnil _ H).
  - destruct n; simpl; try discriminate;
      intros H; injection H as H; exact (Unsigned.to_uint_nonnil _ H).
Qed.

Lemma get_launcher_eq (num_gpus : Z) :
  get_launcher num_gpus
  = ["deepspeed"; "--num_nodes"; "1"; "--num_gpus"; PyStr.of_int num_gpus].
Proof.
  unfold get_launcher, PyStr.split.
  rewrite (split_from_scan_eq "" _ _
             ["deepspeed"; "--num_nodes"; "1"; "--num_gpus"] "")
    by (vm_compute; reflexivity).
  rewrite split_from_word by apply of_int_no_space.
  change ("" +:+ PyStr.of_int num_gpus) with (PyStr.of_int num_gpus).
  unfold cons_token. rewrite of_int_nonempty. reflexivity.
Qed.

Lemma get_launcher_num_gpus (num_gpus : Z) :
  flag_int "--num_gpus" (get_launcher num_gpus) = Some num_gpus.
Proof.
  rewrite get_launcher_eq. unfold flag_int. simpl. apply to_int_of_int.
Qed.

(** X1: for every integer [num_gpus] the launcher prefix is the five tokens
    [deepspeed --num_nodes 1 --num_gpus <num_gpus>]: one node, and the count
    in decimal, which reads back as [num_gpus]. *)
Theorem get_launcher_tokens (num_gpus : Z) :
  get_launcher num_gpus
    = ["deepspeed"; "--num_nodes"; "1"; "--num_gpus"; PyStr.of_int num_gpus] /\
  flag_int "--num_nodes" (get_launcher num_gpus) = Some 1 /\
  flag_int "--num_gpus" (get_launcher num_gpus) = Some num_gpus.
Proof.
  split; [apply get_launcher_eq |].
  split; [rewrite get_launcher_eq; reflexivity | apply get_launcher_num_gpus].
Qed.



Lemma is_flag_sound (flag : string) (t : token) (b : bool) :
  is_flag flag t = Some b -> String.eqb (denote t) flag = b.
Proof.
  destruct t as [s | x lit]; simpl.
  - intros H. injection H as <-. reflexivity.
  - destruct (is_suffix lit flag) eqn:E; [discriminate |].
    intros H. injection H as <-. apply eqb_app_not_suffix, E.
Qed.

Lemma lookup_sound (flag : string) (l : list token) (r : option token) :
  lookup flag l = Some r ->
  flag_value flag (map denote l) = option_map denote r.
Proof.
  induction l as [| t rest IH]; simpl.
  - intros H. injection H as <-. reflexivity.
  - destruct (is_flag flag t) as [[|] |] eqn:E; [| | discriminate];
      rewrite (is_flag_sound _ _ _ E).
    + intros H. injection H as <-. destruct rest; reflexivity.
    + exact IH.
Qed.

Ltac reify_tokens l :=
  lazymatch l with
  | [] => constr:(@nil token)
  | ?a :: ?rest =>
      let r := reify_tokens rest in
      lazymatch a with
      | ?x +:+ ?lit => constr:(Sym x lit :: r)
      | _ => constr:(Lit a :: r)
      end
  end.

(** Present the explicit token list of the goal as [map denote toks]. *)
Ltac reify_goal :=
  repeat match goal with
  | |- context [flag_value _ (?a :: ?rest)] =>
      let rl := reify_tokens (a :: rest) in
      let toks := fresh "toks" in
      pose (toks := rl);
      change (a :: rest) with (map denote toks)
  end.

(** Look a flag up in the reified list. *)
Ltac find_flag :=
  unfold flag_int;
  erewrite lookup_sound by (vm_compute; reflexivity);
  reflexivity.

(** Write the argument lists of a configuration out, token by token. *)
Ltac read_templates :=
  repeat match goal with
  | |- context [PyStr.split ?s] =>
      let L := fresh "L" in
      let H := fresh "H" in
      evar (L : list string);
      assert (H : PyStr.split s = L)
        by (subst L; unfold PyStr.split; repeat split_step; cbn [app];
            reflexivity);
      rewrite H; clear H; subst L
  end.

(** X4: when [data_dir] and [output_dir] hold no whitespace, each path of
    the "base" and "cl" argument lists is one token: the job saves to and
    loads from the same directory [<output_dir>/checkpoints], writes its
    event files to [<output_dir>/tensorboard], the directory the test globs,
    and reads its data, merges and vocabulary under [<data_dir>/gpt2]. *)
Theorem config_paths self n variation o :
  no_space (data_dir self) = true -> no_space o = true ->
  variation = "base" \/ variation = "cl" ->
  exists args ds_args w,
    get_variation_config self n variation o = inr (args, ds_args, w) /\
    flag_value "--save" args = Some (o +:+ "/checkpoints") /\
    flag_value "--load" args = Some (o +:+ "/checkpoints") /\
    flag_value "--tensorboard-dir" args = Some (o +:+ "/tensorboard") /\
    flag_value "--codecarbon-dir" args = Some (o +:+ "/codecarbon") /\
    flag_value "--data-path" args
      = Some ((data_dir self +:+ "/gpt2")
              +:+ "/meg-gpt2-openwebtext_text_document") /\
    flag_value "--merge-file" args
      = Some ((data_dir self +:+ "/gpt2") +:+ "/gpt2-tiny-merges.txt") /\
    flag_value "--vocab-file" args
      = Some ((data_dir self +:+ "/gpt2") +:+ "/gpt2-tiny-vocab.json").
Proof.
  intros Hd Ho Hv. unfold get_variation_config.
  destruct (get_3d_dimensions_cases n) as [[_ E] | [[_ E] | [_ E]]];
    rewrite E; cbv beta iota zeta;
    destruct Hv as [-> | ->];
    try rewrite String.eqb_refl;
    try (replace (String.eqb "cl" "base") with false by reflexivity;
         rewrite String.eqb_refl);
    eexists _, _, _; (split; [reflexivity |]);
    read_templates; reify_goal; repeat split; find_flag.
Qed.

Lemma config_paths_witness :
  exists args ds_args w,
    get_variation_config sample_case 4 "cl" "/tmp/out"
      = inr (args, ds_args, w) /\
    flag_value "--save" args = Some "/tmp/out/checkpoints" /\
    flag_value "--load" args = Some "/tmp/out/checkpoints" /\
    flag_value "--tensorboard-dir" args = Some "/tmp/out/tensorboard".
Proof.
  destruct (config_paths sample_case 4 "cl" "/tmp/out")
    as (args & ds_args & w & Hc & Hs & Hl & Ht & _);
    [reflexivity | reflexivity | right; reflexivity |].
  exists args, ds_args, w. auto.
Defined.

Ltac open_config E Hv :=
  unfold get_variation_config;
  lazymatch goal with
  | |- context [get_3d_dimensions ?n] =>
      destruct (get_3d_dimensions_cases n) as [[_ E] | [[_ E] | [_ E]]]
  end;
  rewrite E; cbv beta iota zeta;
  try destruct Hv as [-> | ->];
  try rewrite String.eqb_refl;
  try (replace (String.eqb "cl" "base") with false by reflexivity;
       rewrite String.eqb_refl).



(** X6: when [test_file_dir_str] holds no whitespace the DeepSpeed argument
    list is exactly six tokens; "base" points [--deepspeed_config] at
    [ds_config.json] and "cl" at [ds_config_cl.json], both beside the test
    file, with ZeRO stage 1 and activation checkpointing. *)
Theorem deepspeed_config_file self n o :
  no_space (test_file_dir_str self) = true ->
  (exists args w,
      get_variation_config self n "base" o
      = inr (args,
             ["--deepspeed"; "--deepspeed_config";
              test_file_dir_str self +:+ "/ds_config.json";
              "--zero-stage"; "1"; "--deepspeed-activation-checkpointing"],
             w)) /\
  (exists args w,
      get_variation_config self n "cl" o
      = inr (args,
             ["--deepspeed"; "--deepspeed_config";
              test_file_dir_str self +:+ "/ds_config_cl.json";
              "--zero-stage"; "1"; "--deepspeed-activation-checkpointing"],
             w)).
Proof.
  intros Ht. split; open_config E Hv; eexists _, _; f_equal; f_equal; f_equal;
    unfold PyStr.split; repeat split_step; reflexivity.
Qed.

Lemma deepspeed_config_file_witness :
  exists args w,
    get_variation_config sample_case 4 "cl" "/tmp/out"
    = inr (args,
           ["--deepspeed"; "--deepspeed_config";
            "/repo/tests" +:+ "/ds_config_cl.json";
            "--zero-stage"; "1"; "--deepspeed-activation-checkpointing"],
           w).
Proof.
  apply (deepspeed_config_file sample_case 4 "/tmp/out"). reflexivity.
Defined.

Lemma lookup_sound_prefix (flag : string) (l : list token) (v : token)
    (tail : list string) :
  lookup flag l = Some (Some v) ->
  flag_value flag (map denote l ++ tail) = Some (denote v).
Proof.
  induction l as [| t rest IH]; simpl; [discriminate |].
  destruct (is_flag flag t) as [[|] |] eqn:E; [| | discriminate];
    rewrite (is_flag_sound _ _ _ E).
  - destruct rest as [| v' rest]; simpl; [discriminate |].
    intros H. injection H as <-. reflexivity.
  - exact IH.
Qed.

Ltac reify_prefix l :=
  lazymatch l with
  | ?a :: ?rest =>
      let r := reify_prefix rest in
      lazymatch r with
      | (?rl, ?tail) =>
          lazymatch a with
          | ?x +:+ ?lit => constr:((Sym x lit :: rl, tail))
          | _ => constr:((Lit a :: rl, tail))
          end
      end
  | ?t => constr:((@nil token, t))
  end.

(** X7: an [output_dir] with whitespace in it is cut there: when it is [a],
    a whitespace character and anything more, with [a] non-empty and free of
    whitespace, the value handed over under [--save] is [a] alone, without
    [/checkpoints]. *)
Theorem output_dir_with_whitespace self n variation a sp b :
  no_space (data_dir self) = true ->
  no_space a = true -> a <> "" -> PyStr.is_space sp = true ->
  variation = "base" \/ variation = "cl" ->
  exists args ds_args w,
    get_variation_config self n variation (a +:+ String sp b)
      = inr (args, ds_args, w) /\
    flag_value "--save" args = Some a.
Proof.
  intros Hd Ha Hne Hsp Hv. open_config E Hv;
    eexists _, _, _; (split; [reflexivity |]);
    unfold PyStr.split; repeat split_step;
    rewrite (append_assoc a), (split_from_hole _ a) by exact Ha;
    rewrite append_cons, split_from_cons, Hsp;
    rewrite (cons_token_app_r "" a) by (apply String.eqb_neq; exact Hne);
    cbn [app];
    lazymatch goal with
    | |- flag_value _ ?l = _ =>
        let r := reify_prefix l in
        lazymatch r with
        | (?rl, ?tail) => change l with (map denote rl ++ tail)%list
        end
    end;
    erewrite lookup_sound_prefix by (vm_compute; reflexivity);
    reflexivity.
Qed.

Lemma output_dir_with_whitespace_witness :
  exists args ds_args w,
    get_variation_config sample_case 4 "base" "/tmp/my dir"
      = inr (args, ds_args, w) /\
    flag_value "--save" args = Some "/tmp/my".
Proof.
  apply (output_dir_with_whitespace sample_case 4 "base" "/tmp/my" " " "dir");
    [reflexivity | reflexivity | discriminate | reflexivity
    | left; reflexivity].
Defined.

(** X2: for a known variation the worker count returned, which the test
    hands to [deepspeed --num_gpus], is the product of the values passed
    under [--tensor-model-parallel-size] and
    [--pipeline-model-parallel-size], whatever the paths are. *)
Theorem launcher_matches_parallel_sizes self n variation o :
  variation = "base" \/ variation = "cl" ->
  exists args ds_args w tp pp,
    get_variation_config self n variation o = inr (args, ds_args, w) /\
    flag_int "--tensor-model-parallel-size" args = Some tp /\
    flag_int "--pipeline-model-parallel-size" args = Some pp /\
    w = tp * pp /\
    flag_int "--num_gpus" (get_launcher w) = Some w.
Proof.
  intros Hv. open_config E Hv;
    eexists _, _, _, _, _; (split; [reflexivity |]);
    (split; [vm_compute; reflexivity |]);
    (split; [vm_compute; reflexivity |]);
    (split; [reflexivity | apply get_launcher_num_gpus]).
Qed.

Lemma launcher_matches_parallel_sizes_witness :
  exists args ds_args w tp pp,
    get_variation_config sample_case 3 "base" "/tmp/out"
      = inr (args, ds_args, w) /\
    flag_int "--tensor-model-parallel-size" args = Some tp /\
    flag_int "--pipeline-model-parallel-size" args = Some pp /\
    w = tp * pp /\
    flag_int "--num_gpus" (get_launcher w) = Some w.
Proof.
  apply (launcher_matches_parallel_sizes sample_case 3 "base" "/tmp/out").
  left. reflexivity.
Defined.

(** X3: the worker count is at least 1 and never above the number of
    accelerators detected, except that one worker is asked for even when
    none is detected. *)
Theorem workers_within_gpus self n variation o args ds_args w :
  get_variation_config self n variation o = inr (args, ds_args, w) ->
  1 <= w <= Z.max 1 n.
Proof.
  intros Hc.
  destruct (get_variation_config_num_gpus _ _ _ _ _ _ _ Hc)
    as (pp & tp & dp & Hd & Hdp & ->).
  destruct (get_3d_dimensions_cases n) as [[Hn E] | [[Hn E] | [Hn E]]];
    rewrite E in Hd; injection Hd as <- <- <-; lia.
Qed.

Lemma workers_within_gpus_witness :
  match get_variation_config sample_case 3 "cl" "/tmp/out" with
  | inr (_, _, w) => 1 <= w <= Z.max 1 3
  | inl _ => False
  end.
Proof.
  destruct (get_variation_config sample_case 3 "cl" "/tmp/out")
    as [e | [[args ds_args] w]] eqn:E.
  - vm_compute in E. discriminate E.
  - exact (workers_within_gpus sample_case 3 "cl" "/tmp/out" args ds_args w E).
Defined.



(** * What the test driver does with the job *)

Section DriverFacts.

Context {W Env : Type}.
Variable get_gpu_count : W -> Z.
Variable get_auto_remove_tmp_dir : TestCasePlus -> W -> string * W.
Variable get_env : TestCasePlus -> Env.
Variable execute_subprocess_async :
  list string -> Env -> W -> result string * W.
Variable glob_glob : string -> W -> list string.

Abbreviation test_all :=
  (test_training_all get_gpu_count get_auto_remove_tmp_dir get_env
     execute_subprocess_async glob_glob).
Abbreviation test_prefix :=
  (test_training_prefix_lm_all get_gpu_count get_auto_remove_tmp_dir get_env
     execute_subprocess_async glob_glob).

(** Bring a test to the point where its command line is known. *)
Ltac enter_test Htmp Hcfg :=
  unfold test_training_all, test_training_prefix_lm_all,
    bind, tmp_dir, gpu_count, lift, execute, glob;
  rewrite Htmp; cbv zeta; cbn [world launched];
  rewrite Hcfg; cbn [world launched];
  unfold assertIn, assertEqual, ret, raise.

(** Split on the next thing the test looks at. *)
Ltac next_check :=
  cbv beta iota; cbn [world launched fst snd];
  match goal with
  | |- context [execute_subprocess_async ?c ?e ?w] =>
      let r := fresh "r" in
      let w' := fresh "w" in
      let Hr := fresh "Hrun" in
      destruct (execute_subprocess_async c e w) as [r w'] eqn:Hr;
      destruct r
  | |- context [PyStr.contains ?m ?out] =>
      let Hc := fresh "Hin" in
      destruct (PyStr.contains m out) eqn:Hc
  | |- context [Z.eqb (Z.of_nat ?n) ?k] =>
      destruct (Z.eqb_spec (Z.of_nat n) k)
  end.

(** X9: no retry.  When the first run of the job raises, the test ends with
    that very exception, after one launch, in the world the job left. *)
Theorem first_run_failure_is_final self variation st o w1 args ds_args num e w2 :
  get_auto_remove_tmp_dir self (world st) = (o, w1) ->
  get_variation_config self (get_gpu_count w1) variation o
    = inr (args, ds_args, num) ->
  let cmd := (get_launcher num ++ [src_dir self +:+ "/pretrain_gpt.py"]
              ++ args ++ ds_args)%list in
  execute_subprocess_async cmd (get_env self) w1 = (inl e, w2) ->
  let r := test_all self variation st in
  fst r = inl e /\ launched (snd r) = (launched st ++ [cmd])%list /\
  world (snd r) = w2.
Proof.
  intros Htmp Hcfg cmd Hrun r. subst r. enter_test Htmp Hcfg.
  fold cmd. rewrite Hrun. cbn. auto.
Qed.

(** X10: the second run waits for a clean first run.  When the first run
    completes but its output lacks one of the four markers, or the
    event-file glob does not match exactly one file, the test ends with an
    [AssertionError] and the job is not launched a second time. *)
Theorem no_resume_after_failed_checks self variation st o w1 args ds_args num
    out1 w2 :
  get_auto_remove_tmp_dir self (world st) = (o, w1) ->
  get_variation_config self (get_gpu_count w1) variation o
    = inr (args, ds_args, num) ->
  let cmd := (get_launcher num ++ [src_dir self +:+ "/pretrain_gpt.py"]
              ++ args ++ ds_args)%list in
  execute_subprocess_async cmd (get_env self) w1 = (inr out1, w2) ->
  markers_present (first_run_markers o) out1 = false \/
  length (glob_glob (o +:+ "/tensorboard/events*") w2) <> 1%nat ->
  let r := test_all self variation st in
  (exists msg, fst r = inl (AssertionError msg)) /\
  launched (snd r) = (launched st ++ [cmd])%list /\
  world (snd r) = w2.
Proof.
  intros Htmp Hcfg cmd Hrun Hbad r. subst r. enter_test Htmp Hcfg.
  fold cmd. rewrite Hrun. cbn [world launched fst snd].
  unfold markers_present, first_run_markers, forallb in Hbad.
  do 4 (next_check; [| cbn; eauto]).
  next_check; [| cbn; eauto].
  exfalso. destruct Hbad as [Hbad | Hbad].
  - repeat match goal with
           | Hc : PyStr.contains _ _ = true |- _ => rewrite Hc in Hbad; clear Hc
           end.
    discriminate Hbad.
  - apply Hbad. lia.
Qed.

(** X11: when the first run passes all its checks and the second run of
    the job raises, the test ends with that exception, after two launches of
    the same command. *)
Theorem second_run_failure_is_final self variation st o w1 args ds_args num
    out1 w2 e w3 :
  get_auto_remove_tmp_dir self (world st) = (o, w1) ->
  get_variation_config self (get_gpu_count w1) variation o
    = inr (args, ds_args, num) ->
  let cmd := (get_launcher num ++ [src_dir self +:+ "/pretrain_gpt.py"]
              ++ args ++ ds_args)%list in
  execute_subprocess_async cmd (get_env self) w1 = (inr out1, w2) ->
  markers_present (first_run_markers o) out1 = true ->
  length (glob_glob (o +:+ "/tensorboard/events*") w2) = 1%nat ->
  execute_subprocess_async cmd (get_env self) w2 = (inl e, w3) ->
  let r := test_all self variation st in
  fst r = inl e /\ launched (snd r) = (launched st ++ [cmd; cmd])%list /\
  world (snd r) = w3.
Proof.
  intros Htmp Hcfg cmd Hrun1 Hok Hone Hrun2 r. subst r. enter_test Htmp Hcfg.
  fold cmd. rewrite Hrun1. cbn [world launched fst snd].
  unfold markers_present, first_run_markers, forallb in Hok.
  repeat (apply andb_true_iff in Hok as [?Hin Hok]).
  repeat match goal with
         | Hc : PyStr.contains _ _ = true |- _ => rewrite Hc; clear Hc
         end.
  cbv beta iota. cbn [world launched fst snd]. rewrite Hone.
  replace (Z.eqb (Z.of_nat 1) 1) with true by reflexivity.
  cbv beta iota. cbn [world launched fst snd].
  rewrite Hrun2. cbn [fst snd world launched].
  rewrite <- app_assoc. auto.
Qed.

Lemma launched_twice (l : list (list string)) (cmd : list string) :
  ((l ++ [cmd]) ++ [cmd])%list = (l ++ [cmd; cmd])%list.
Proof. rewrite <- app_assoc. reflexivity. Qed.

(** X12: for a known variation the test launches the job once or twice,
    never more, each time with the same command:
    [deepspeed --num_nodes 1 --num_gpus <workers> <src_dir>/pretrain_gpt.py]
    followed by the training and the DeepSpeed arguments; a passing test has
    launched it exactly twice. *)
Theorem launches_once_or_twice self variation st o w1 args ds_args num :
  get_auto_remove_tmp_dir self (world st) = (o, w1) ->
  get_variation_config self (get_gpu_count w1) variation o
    = inr (args, ds_args, num) ->
  let cmd := (["deepspeed"; "--num_nodes"; "1"; "--num_gpus"; PyStr.of_int num;
               src_dir self +:+ "/pretrain_gpt.py"] ++ args ++ ds_args)%list in
  let r := test_all self variation st in
  (launched (snd r) = (launched st ++ [cmd])%list \/
   launched (snd r) = (launched st ++ [cmd; cmd])%list) /\
  (fst r = inr tt -> launched (snd r) = (launched st ++ [cmd; cmd])%list).
Proof.
  intros Htmp Hcfg cmd r. subst r. enter_test Htmp Hcfg.
  rewrite get_launcher_eq. cbn [app]. fold cmd.
  repeat next_check; cbn [world launched fst snd];
    rewrite ?launched_twice; (split; [auto | ]);
    first [discriminate | reflexivity].
Qed.

(** X13: for a known variation the test can fail in two ways only: with an
    [AssertionError] of one of its checks, or with the exception that a run
    of the job raised. *)
Theorem failures_are_assertions_or_job_errors self variation st o w1
    args ds_args num e :
  get_auto_remove_tmp_dir self (world st) = (o, w1) ->
  get_variation_config self (get_gpu_count w1) variation o
    = inr (args, ds_args, num) ->
  let cmd := (get_launcher num ++ [src_dir self +:+ "/pretrain_gpt.py"]
              ++ args ++ ds_args)%list in
  fst (test_all self variation st) = inl e ->
  (exists msg, e = AssertionError msg) \/
  (exists w w', execute_subprocess_async cmd (get_env self) w = (inl e, w')).
Proof.
  intros Htmp Hcfg cmd. enter_test Htmp Hcfg. fold cmd.
  repeat next_check; cbn [world launched fst snd];
    intros H; try discriminate H; injection H as <-; eauto.
Qed.

(** X14: the prefix-LM test launches
    [deepspeed --num_nodes 1 --num_gpus <workers> <src_dir>/pretrain_prefix_lm.py ...]
    once or twice, exactly twice when it passes, and fails only with an
    [AssertionError] or with the exception a run of the job raised. *)
Theorem prefix_lm_test_outcomes self st o w1 args ds_args num :
  get_auto_remove_tmp_dir self (world st) = (o, w1) ->
  prefix_lm_config self (get_gpu_count w1) o = (args, ds_args, num) ->
  let cmd := (["deepspeed"; "--num_nodes"; "1"; "--num_gpus"; PyStr.of_int num;
               src_dir self +:+ "/pretrain_prefix_lm.py"]
              ++ args ++ ds_args)%list in
  let r := test_prefix self st in
  (launched (snd r) = (launched st ++ [cmd])%list \/
   launched (snd r) = (launched st ++ [cmd; cmd])%list) /\
  (fst r = inr tt -> launched (snd r) = (launched st ++ [cmd; cmd])%list) /\
  (forall e, fst r = inl e ->
     (exists msg, e = AssertionError msg) \/
     (exists w w', execute_subprocess_async cmd (get_env self) w = (inl e, w'))).
Proof.
  intros Htmp Hcfg cmd r. subst r. enter_test Htmp Hcfg.
  rewrite get_launcher_eq. cbn [app]. fold cmd.
  repeat next_check; cbn [world launched fst snd];
    rewrite ?launched_twice; (split; [auto | split]);
    first [discriminate | reflexivity
          | intros e' H; try discriminate H; injection H as <-; eauto].
Qed.

End DriverFacts.

Lemma first_run_failure_is_final_witness :
  let r := test_training_all Demo.get_gpu_count Demo.get_auto_remove_tmp_dir
             Demo.get_env crashing_job Demo.glob_glob
             sample_case "base" Demo.st0 in
  fst r = inl (ExternalError "exit status 1") /\
  length (launched (snd r)) = 1%nat.
Proof.
  edestruct (first_run_failure_is_final
               Demo.get_gpu_count Demo.get_auto_remove_tmp_dir Demo.get_env
               crashing_job Demo.glob_glob sample_case "base" Demo.st0)
    as (H1 & H2 & _);
    [reflexivity | vm_compute; reflexivity | reflexivity |].
  split; [exact H1 | rewrite H2; reflexivity].
Defined.

Lemma no_resume_after_failed_checks_witness :
  let r := test_training_all Demo.get_gpu_count Demo.get_auto_remove_tmp_dir
             Demo.get_env silent_job Demo.glob_glob
             sample_case "cl" Demo.st0 in
  (exists msg, fst r = inl (AssertionError msg)) /\
  length (launched (snd r)) = 1%nat.
Proof.
  edestruct (no_resume_after_failed_checks
               Demo.get_gpu_count Demo.get_auto_remove_tmp_dir Demo.get_env
               silent_job Demo.glob_glob sample_case "cl" Demo.st0)
    as (H1 & H2 & _);
    [reflexivity | vm_compute; reflexivity | reflexivity
    | left; reflexivity |].
  split; [exact H1 | rewrite H2; reflexivity].
Defined.

Lemma second_run_failure_is_final_witness :
  let r := test_training_all Demo.get_gpu_count Demo.get_auto_remove_tmp_dir
             Demo.get_env job_crashing_on_resume Demo.glob_glob
             sample_case "base" Demo.st0 in
  fst r = inl (ExternalError "exit status 1") /\
  length (launched (snd r)) = 2%nat.
Proof.
  edestruct (second_run_failure_is_final
               Demo.get_gpu_count Demo.get_auto_remove_tmp_dir Demo.get_env
               job_crashing_on_resume Demo.glob_glob sample_case "base"
               Demo.st0)
    as (H1 & H2 & _);
    [reflexivity | vm_compute; reflexivity | vm_compute; reflexivity
    | vm_compute; reflexivity | vm_compute; reflexivity
    | vm_compute; reflexivity |].
  split; [exact H1 | rewrite H2; reflexivity].
Defined.

Lemma launches_once_or_twice_witness :
  let r := test_training_all Demo.get_gpu_count Demo.get_auto_remove_tmp_dir
             Demo.get_env (Demo.trainer true) Demo.glob_glob
             sample_case "base" Demo.st0 in
  fst r = inr tt /\ length (launched (snd r)) = 2%nat.
Proof.
  edestruct (launches_once_or_twice
               Demo.get_gpu_count Demo.get_auto_remove_tmp_dir Demo.get_env
               (Demo.trainer true) Demo.glob_glob sample_case "base" Demo.st0)
    as (_ & H2);
    [reflexivity | vm_compute; reflexivity |].
  assert (Hp : fst (test_training_all Demo.get_gpu_count
                      Demo.get_auto_remove_tmp_dir Demo.get_env
                      (Demo.trainer true) Demo.glob_glob
                      sample_case "base" Demo.st0) = inr tt)
    by (vm_compute; reflexivity).
  split; [exact Hp | rewrite (H2 Hp); reflexivity].
Defined.

Lemma failures_are_assertions_or_job_errors_witness :
  (exists msg, ExternalError "exit status 1" = AssertionError msg) \/
  (exists cmd w w',
      crashing_job cmd tt w = (inl (ExternalError "exit status 1"), w')).
Proof.
  edestruct (failures_are_assertions_or_job_errors
               Demo.get_gpu_count Demo.get_auto_remove_tmp_dir Demo.get_env
               crashing_job Demo.glob_glob sample_case "base" Demo.st0)
    as [H | (w & w' & H)];
    [reflexivity | vm_compute; reflexivity | vm_compute; reflexivity
    | left; exact H | right; eauto].
Defined.

Lemma prefix_lm_test_outcomes_witness :
  let r := test_training_prefix_lm_all Demo.get_gpu_count
             Demo.get_auto_remove_tmp_dir Demo.get_env (Demo.trainer true)
             Demo.glob_glob sample_case Demo.st0 in
  fst r = inr tt /\ length (launched (snd r)) = 2%nat.
Proof.
  edestruct (prefix_lm_test_outcomes
               Demo.get_gpu_count Demo.get_auto_remove_tmp_dir Demo.get_env
               (Demo.trainer true) Demo.glob_glob sample_case Demo.st0)
    as (_ & H2 & _);
    [reflexivity | vm_compute; reflexivity |].
  assert (Hp : fst (test_training_prefix_lm_all Demo.get_gpu_count
                      Demo.get_auto_remove_tmp_dir Demo.get_env
                      (Demo.trainer true) Demo.glob_glob
                      sample_case Demo.st0) = inr tt)
    by (vm_compute; reflexivity).
  split; [exact Hp | rewrite (H2 Hp); reflexivity].
Defined.

(** * More about [setUp], the adapter and the tokens *)

Lemma setUp_cases (self : TestCasePlus) (fs : gmap string node) :
  let lock := repo_root_dir_str self +:+ "/megatron/fused_kernels/build/lock" in
  (fs !! lock = None /\ setUp self fs = inr fs) \/
  (fs !! lock = Some Dir /\ setUp self fs = inl (IsADirectoryError lock)) \/
  (exists c, fs !! lock = Some (File c) /\ setUp self fs = inr (delete lock fs)).
Proof.
  intros lock. unfold setUp, os.path_exists, os.unlink. fold lock.
  destruct (fs !! lock) as [[c |] |] eqn:E; eauto.
Qed.

(** X15: [setUp] fails in one situation only: a directory sits at the lock
    path, and then [os.unlink] raises [IsADirectoryError] for that path.  In
    particular the existence test keeps [FileNotFoundError] out. *)
Theorem setUp_fails_only_on_directory (self : TestCasePlus)
    (fs : gmap string node) (e : exn) :
  let lock := repo_root_dir_str self +:+ "/megatron/fused_kernels/build/lock" in
  setUp self fs = inl e <->
  fs !! lock = Some Dir /\ e = IsADirectoryError lock.
Proof.
  intros lock.
  destruct (setUp_cases self fs) as [[E H] | [[E H] | (c & E & H)]];
    fold lock in E, H; rewrite H, E; split.
  all: try discriminate.
  all: try (intros [? ?]; discriminate).
  - intros H'. injection H' as <-. auto.
  - intros [_ ->]. reflexivity.
Qed.

Lemma setUp_fails_only_on_directory_witness :
  setUp sample_case (<["/repo/megatron/fused_kernels/build/lock" := Dir]>
                       Demo.lock_fs)
  = inl (IsADirectoryError "/repo/megatron/fused_kernels/build/lock").
Proof.
  apply (setUp_fails_only_on_directory sample_case). split; reflexivity.
Defined.

(** X16: [setUp] is idempotent: run again on the file system it produced,
    it succeeds and changes nothing. *)
Theorem setUp_idempotent (self : TestCasePlus) (fs fs' : gmap string node) :
  setUp self fs = inr fs' -> setUp self fs' = inr fs'.
Proof.
  intros H.
  destruct (setUp_cases self fs) as [[E H1] | [[E H1] | (c & E & H1)]];
    rewrite H1 in H; try discriminate H; injection H as <-.
  - exact H1.
  - destruct (setUp_cases self (delete
        (repo_root_dir_str self +:+ "/megatron/fused_kernels/build/lock") fs))
      as [[E2 H2] | [[E2 H2] | (c2 & E2 & H2)]];
      rewrite lookup_delete_eq in E2; try discriminate E2. exact H2.
Qed.

Lemma setUp_idempotent_witness :
  setUp sample_case (delete "/repo/megatron/fused_kernels/build/lock"
                       Demo.lock_fs)
  = inr (delete "/repo/megatron/fused_kernels/build/lock" Demo.lock_fs).
Proof.
  apply (setUp_idempotent sample_case Demo.lock_fs). reflexivity.
Defined.

Section Adapter.

Variable TorchLM : gmap string value.
Variable call_method :
  value -> string -> list value -> list (string * value) -> result value.


End Adapter.





